(** * ETL_country_GDP_project: a shallow embedding of [main.py]

    The script extracts a table of GDP figures from a web page, converts the
    figures from millions to billions, stores the result in a CSV file and
    in a SQLite table, runs one filter query and logs every milestone.

    Python strings are modelled as [string] holding their UTF-8 bytes (string
    equality and the removal of commas agree with the code-point view),
    Python floats as IEEE 754 binary64 values of [SpecFloat], exceptions as a
    result type, and the objects the script mutates (data frames, files, the
    database, the connection) as explicit state. *)

From Stdlib Require Import ZArith List String Ascii Bool Arith Lia.
From Stdlib Require Import Floats.SpecFloat.
Import ListNotations.

Open Scope string_scope.
Open Scope list_scope.

#[local] Set Warnings "-register-all".

(** ** Exceptions and results *)

Inductive exn : Type :=
| IndexError
| KeyError
| ValueError
| TypeError
| AttributeError
| NameError
| ConnectionError   (* requests: the fetch did not complete *)
| OSError           (* a file could not be written *)
| DatabaseError.    (* sqlite3 / pandas.io.sql *)

Inductive res (A : Type) : Type :=
| Ok (a : A)
| Raise (e : exn).

Arguments Ok {A} a.
Arguments Raise {A} e.

Definition bind {A B : Type} (c : res A) (k : A -> res B) : res B :=
  match c with
  | Ok a => k a
  | Raise e => Raise e
  end.

Declare Scope res_scope.
Delimit Scope res_scope with res.
Notation "x <- c ;; k" := (bind c (fun x => k))
  (at level 100, c at next level, right associativity) : res_scope.
Open Scope res_scope.

(** [l[i]] for a list and a non-negative constant index. *)
Definition index {A : Type} (l : list A) (i : nat) : res A :=
  match nth_error l i with
  | Some a => Ok a
  | None => Raise IndexError
  end.

(** [[f(x) for x in l]]: left to right, the first exception ends the loop. *)
Fixpoint mapM {A B : Type} (f : A -> res B) (l : list A) : res (list B) :=
  match l with
  | [] => Ok []
  | a :: l' => b <- f a ;; bs <- mapM f l' ;; Ok (b :: bs)
  end.

(** ** Floats: binary64 *)

Definition float : Type := spec_float.

Definition prec : Z := 53.
Definition emax : Z := 1024.

Definition nan : float := S754_nan.
Definition float_of_Z (z : Z) : float := binary_normalize prec emax z 0 false.
Definition fmul : float -> float -> float := SFmul prec emax.
Definition fdiv : float -> float -> float := SFdiv prec emax.
Definition fleb : float -> float -> bool := SFleb.
Definition fltb : float -> float -> bool := SFltb.

(** C's [rint] in the default rounding mode: the nearest integer, ties to
    even; infinities, NaN, zeros and integers are returned unchanged. *)
Definition rint (x : float) : float :=
  match x with
  | S754_finite s m e =>
      if (0 <=? e)%Z then x
      else
        let d := (2 ^ (- e))%Z in
        let q := (Zpos m / d)%Z in
        let r := (Zpos m mod d)%Z in
        let n := match (2 * r ?= d)%Z with
                 | Lt => q
                 | Gt => (q + 1)%Z
                 | Eq => if Z.even q then q else (q + 1)%Z
                 end in
        binary_normalize prec emax (cond_Zopp s n) 0 s
  | _ => x
  end.

(** [np.round(x, 2)]: numpy multiplies by [10**2], applies [rint] and divides
    by [10**2], every step in binary64. *)
Definition np_round2 (x : float) : float :=
  fdiv (rint (fmul x (float_of_Z 100))) (float_of_Z 100).

(** ** The parsed document (BeautifulSoup) *)

(** A node of the tree is a string ([NavigableString]) or an element ([Tag])
    with its children in document order. *)
Inductive node : Type :=
| Text (s : string)
| Tag (name : string) (kids : list node).

(** [tag.contents]. It is only read on elements. *)
Definition contents (n : node) : list node :=
  match n with
  | Tag _ kids => kids
  | Text _ => []
  end.

Definition is_tag (name : string) (n : node) : bool :=
  match n with
  | Tag nm _ => String.eqb nm name
  | Text _ => false
  end.

(** [tag.find_all(name)]: the descendants of [tag] that are elements called
    [name], in document order (an element before its own descendants). *)
Fixpoint find_all (name : string) (n : node) : list node :=
  match n with
  | Text _ => []
  | Tag _ kids =>
      (fix descend (l : list node) : list node :=
         match l with
         | [] => []
         | k :: l' =>
             (if is_tag name k then [k] else []) ++ find_all name k ++ descend l'
         end) kids
  end.

(** [tag.find(name)], also written [tag.name]: the first such descendant, or
    [None]. *)
Definition find (name : string) (n : node) : option node :=
  hd_error (find_all name n).

(** The em dash U+2014, the page's mark for a missing figure. *)
Definition emdash : string :=
  String "226" (String "128" (String "148" EmptyString)).

(** [child == s] for a child of an element and a Python string: a
    [NavigableString] compares as the string it is, an element is never
    equal to a string. *)
Definition node_eq_str (k : node) (s : string) : bool :=
  match k with
  | Text t => String.eqb t s
  | Tag _ _ => false
  end.

(** [s in tag] is [s in tag.contents]: some child equals [s]. *)
Definition tag_contains (s : string) (n : node) : bool :=
  existsb (fun k => node_eq_str k s) (contents n).

(** ** Data frames (pandas) *)

(** A cell holds a Python object taken from the document or a float. *)
Inductive cell : Type :=
| CObj (n : node)
| CFloat (f : float).

Definition CNaN : cell := CFloat nan.

(** A frame: the column labels and the rows, each row with one cell per
    column; the row index is the default [0, 1, ...]. *)
Record DataFrame : Type := mkDataFrame {
  columns : list string;
  rows : list (list cell)
}.

Definition mem_str (s : string) (l : list string) : bool :=
  existsb (String.eqb s) l.

Fixpoint lookup {A : Type} (k : string) (d : list (string * A)) : option A :=
  match d with
  | [] => None
  | (k', v) :: d' => if String.eqb k k' then Some v else lookup k d'
  end.

(** [pd.DataFrame(columns=labels)]. *)
Definition empty_frame (labels : list string) : DataFrame :=
  mkDataFrame labels [].

(** [pd.concat([dataset, pd.DataFrame(data_dict, index=[0])],
    ignore_index=True)]: the columns are those of [dataset] followed by the
    keys of [data_dict] that [dataset] lacks; the rows of [dataset] come
    first, then the new row; a cell without a value is NaN. The values of
    [data_dict] fill the new row as scalars, which is what pandas does with
    strings. pandas reads an element as the sequence of its children (and
    raises [ValueError] unless there is exactly one), and [pd.concat]
    refuses repeated labels: the properties of the loop and of extracted
    frames below are stated for the script's labels [table_attribs] and for
    rows whose record values are strings ([text_values]). *)
Definition concat_row (dataset : DataFrame) (data_dict : list (string * cell))
  : DataFrame :=
  let fresh :=
    filter (fun k => negb (mem_str k (columns dataset))) (map fst data_dict) in
  let labels := columns dataset ++ fresh in
  let old := map (fun r => r ++ repeat CNaN (List.length fresh)) (rows dataset) in
  let new :=
    map (fun c => match lookup c data_dict with
                  | Some v => v
                  | None => CNaN
                  end) labels in
  mkDataFrame labels (old ++ [new]).

(** ** extract *)

Definition table_attribs : list string := ["Country"; "GDP_USD_millions"].

(** [{"Country": country, "GDP_USD_millions": gdp}]. *)
Definition data_dict (country gdp : node) : list (string * cell) :=
  [("Country", CObj country); ("GDP_USD_millions", CObj gdp)].

(** The body of the loop for one row: [Ok None] when the row is skipped,
    [Ok (Some data_dict)] when it yields a record. *)
Definition extract_row (row : node) : res (option (list (string * cell))) :=
  let col := find_all "td" row in
  match col with
  | [] => Ok None
  | c0 :: _ =>
      match find "a" c0 with
      | None => Ok None
      | Some a =>
          c2 <- index col 2 ;;
          if tag_contains emdash c2 then Ok None
          else
            country <- index (contents a) 0 ;;
            gdp <- index (contents c2) 0 ;;
            Ok (Some (data_dict country gdp))
      end
  end.

Fixpoint extract_rows (rws : list node) (dataset : DataFrame) : res DataFrame :=
  match rws with
  | [] => Ok dataset
  | row :: rws' =>
      r <- extract_row row ;;
      match r with
      | None => extract_rows rws' dataset
      | Some data_dict => extract_rows rws' (concat_row dataset data_dict)
      end
  end.

(** [extract] once the page has been fetched and parsed into [data]. *)
Definition extract_document (data : node) (table_attributes : list string)
  : res DataFrame :=
  let dataset := empty_frame table_attributes in
  let tables := find_all "tbody" data in
  t <- index tables 2 ;;
  extract_rows (find_all "tr" t) dataset.

Section Extract.
(** [requests.get(url, timeout=10).text] and the HTML parser are the
    environment: a fetch either yields the page text or raises. *)
Variable http_get : string -> res string.
Variable html_parser : string -> node.

Definition extract (url : string) (table_attributes : list string)
  : res DataFrame :=
  page <- http_get url ;;
  extract_document (html_parser page) table_attributes.
End Extract.

(** ** The object store

    [transform] assigns to a column of the frame it is given, so frames are
    objects in a store and variables hold references to them. *)

Definition ref : Type := nat.
Definition heap : Type := list DataFrame.

Definition deref (h : heap) (r : ref) : option DataFrame := nth_error h r.

Fixpoint set_nth {A : Type} (i : nat) (a : A) (l : list A) : list A :=
  match l, i with
  | [], _ => []
  | _ :: l', O => a :: l'
  | x :: l', S i' => x :: set_nth i' a l'
  end.

Definition alloc (h : heap) (d : DataFrame) : ref * heap :=
  (List.length h, h ++ [d]).

(** ** transform *)

Fixpoint position (label : string) (labels : list string) : option nat :=
  match labels with
  | [] => None
  | c :: labels' =>
      if String.eqb c label then Some O
      else option_map S (position label labels')
  end.

Definition occurrences (label : string) (labels : list string) : nat :=
  List.length (filter (String.eqb label) labels).

(** [dataset[label].tolist()]: a missing label raises [KeyError]; a label
    that names several columns selects a frame, which has no [tolist]. *)
Definition column_tolist (d : DataFrame) (label : string) : res (list cell) :=
  match position label (columns d) with
  | None => Raise KeyError
  | Some i =>
      if Nat.ltb 1 (occurrences label (columns d)) then Raise AttributeError
      else Ok (map (fun r => nth i r CNaN) (rows d))
  end.

(** [dataset[label] = values] for an existing, unique label and one value
    per row. *)
Definition set_column (d : DataFrame) (label : string) (values : list cell)
  : DataFrame :=
  match position label (columns d) with
  | None => d
  | Some i =>
      mkDataFrame (columns d)
        (map (fun rv => set_nth i (snd rv) (fst rv)) (combine (rows d) values))
  end.

(** [dataset.rename(columns={old: new})]: a new frame. *)
Definition rename_column (d : DataFrame) (old new : string) : DataFrame :=
  mkDataFrame
    (map (fun c => if String.eqb c old then new else c) (columns d))
    (rows d).

(** ["".join(x.split(','))] on a string. *)
Fixpoint remove_commas (s : string) : string :=
  match s with
  | EmptyString => EmptyString
  | String c s' =>
      if Ascii.eqb c "," then remove_commas s' else String c (remove_commas s')
  end.

Section Transform.
(** Python's [float(str)]. *)
Variable py_float : string -> res float.

(** [float("".join(x.split(',')))] for a cell [x]. On an element,
    [x.split] is [x.find("split")]: calling [None] raises [TypeError], and
    calling an element is [find_all], whose result [join] accepts only
    when it is empty. A float has no [split]. *)
Definition to_float (x : cell) : res float :=
  match x with
  | CObj (Text s) => py_float (remove_commas s)
  | CObj (Tag _ _ as t) =>
      match find "split" t with
      | None => Raise TypeError
      | Some t' =>
          match find_all "," t' with
          | [] => py_float ""
          | _ :: _ => Raise TypeError
          end
      end
  | CFloat _ => Raise AttributeError
  end.

(** [np.round(x/1000, 2)]. *)
Definition to_billions (x : float) : float :=
  np_round2 (fdiv x (float_of_Z 1000)).

(** The frame argument after the column assignment, and the renamed
    frame that is returned. *)
Definition transform_frame (d : DataFrame) : res (DataFrame * DataFrame) :=
  gdp_list <- column_tolist d "GDP_USD_millions" ;;
  gdp_list <- mapM to_float gdp_list ;;
  let gdp_list := map to_billions gdp_list in
  let d' := set_column d "GDP_USD_millions" (map CFloat gdp_list) in
  Ok (d', rename_column d' "GDP_USD_millions" "GDP_USD_billions").

(** [transform(dataset)]: the object [dataset] refers to is updated in the
    store and a reference to a new object is returned. An exception leaves
    the store as it was. (A reference always names an object of the store;
    the first branch is there for totality.) *)
Definition transform (dataset : ref) (h : heap) : res (ref * heap) :=
  match deref h dataset with
  | None => Raise NameError
  | Some d =>
      dd <- transform_frame d ;;
      Ok (alloc (set_nth dataset (fst dd) h) (snd dd))
  end.
End Transform.

(** The value of a decimal digit, and of a string of decimal digits. *)
Definition digit_value (c : ascii) : option Z :=
  let n := nat_of_ascii c in
  if Nat.leb 48 n && Nat.leb n 57 then Some (Z.of_nat (n - 48)) else None.

Fixpoint digits_value (acc : Z) (s : string) : option Z :=
  match s with
  | EmptyString => Some acc
  | String c s' =>
      match digit_value c with
      | Some d => digits_value (10 * acc + d)%Z s'
      | None => None
      end
  end.

Definition decimal_value (s : string) : option Z :=
  match s with
  | EmptyString => None
  | _ => digits_value 0%Z s
  end.

(** A [float] that reads the non-empty strings of ASCII digits and nothing
    else. *)
Definition float_of_digits (s : string) : res float :=
  match decimal_value s with
  | Some z => Ok (float_of_Z z)
  | None => Raise ValueError
  end.

(** What the development assumes of [float(str)]: a non-empty string of
    ASCII digits is read as the double nearest to the integer it writes. *)
Definition reads_digits (py_float : string -> res float) : Prop :=
  forall s z, decimal_value s = Some z -> py_float s = Ok (float_of_Z z).

(** ** The database (SQLite through pandas) *)

Inductive sqltype : Type := REAL | TEXT.

(** A table: its columns with their declared types, and its rows. *)
Record table : Type := mkTable {
  t_columns : list (string * sqltype);
  t_rows : list (list cell)
}.

(** The database file: its tables by name. *)
Definition database : Type := list (string * table).

Definition is_float (c : cell) : bool :=
  match c with
  | CFloat _ => true
  | CObj _ => false
  end.

(** The type pandas declares for the [i]-th column: a column of floats is
    [REAL], a column of objects is [TEXT]. *)
Definition column_type (d : DataFrame) (i : nat) : sqltype :=
  if forallb (fun r => is_float (nth i r CNaN)) (rows d) then REAL else TEXT.

Definition schema (d : DataFrame) : list (string * sqltype) :=
  map (fun ic => (snd ic, column_type d (fst ic)))
      (combine (seq 0 (List.length (columns d))) (columns d)).

(** The values sqlite3 can bind: strings and floats, not elements. *)
Definition storable (c : cell) : bool :=
  match c with
  | CObj (Text _) => true
  | CObj (Tag _ _) => false
  | CFloat _ => true
  end.

Definition drop_table (name : string) (db : database) : database :=
  filter (fun nt => negb (String.eqb (fst nt) name)) db.

Definition create_table (name : string) (cols : list (string * sqltype))
  (db : database) : database :=
  db ++ [(name, mkTable cols [])].

Definition insert_row (name : string) (row : list cell) (db : database)
  : res database :=
  if forallb storable row then
    Ok (map (fun nt =>
               if String.eqb (fst nt) name
               then (fst nt, mkTable (t_columns (snd nt)) (t_rows (snd nt) ++ [row]))
               else nt) db)
  else Raise DatabaseError.

Fixpoint insert_rows (name : string) (rws : list (list cell)) (db : database)
  : res database :=
  match rws with
  | [] => Ok db
  | r :: rws' => db' <- insert_row name r db ;; insert_rows name rws' db'
  end.

(** [dataset.to_sql(table_name, sql_connection, if_exists='replace',
    index=False)]: drop the table if it exists, create it from the frame's
    columns, insert the frame's rows. *)
Definition to_sql_replace (d : DataFrame) (name : string) (db : database)
  : res database :=
  insert_rows name (rows d) (create_table name (schema d) (drop_table name db)).

(** The statements [SELECT * from T WHERE C >= N], kept as their parts;
    [statement_text] is the SQL text that is printed and sent to the
    engine. *)
Record statement : Type := mkStatement {
  q_table : string;
  q_column : string;
  q_bound : nat
}.

Definition digit (n : nat) : ascii := ascii_of_nat (48 + n mod 10).

(** The decimal numeral of [n]; [fuel] bounds the number of digits. *)
Fixpoint numeral (fuel n : nat) (acc : string) : string :=
  match fuel with
  | O => acc
  | S fuel' =>
      let acc' := String (digit n) acc in
      if Nat.ltb n 10 then acc' else numeral fuel' (n / 10) acc'
  end.

Definition str (n : nat) : string := numeral (S n) n EmptyString.

Definition statement_text (q : statement) : string :=
  ("SELECT * from " ++ q_table q ++ " WHERE " ++ q_column q ++ " >= "
   ++ str (q_bound q))%string.

Definition lookup_table (name : string) (db : database) : option table :=
  lookup name db.

Section Query.
(** How the engine compares a value of a [TEXT] column with an integer
    literal; the script only queries a column of floats. *)
Variable text_ge : cell -> nat -> bool.

(** [value >= bound] in a [WHERE] clause. NaN is stored as NULL, and a
    comparison with NULL selects nothing. *)
Definition sql_ge (ty : sqltype) (value : cell) (bound : nat) : bool :=
  match ty, value with
  | REAL, CFloat f => fleb (float_of_Z (Z.of_nat bound)) f
  | _, _ => text_ge value bound
  end.

(** [pd.read_sql(query_statement, sql_connection)]. *)
Definition read_sql (q : statement) (db : database) : res DataFrame :=
  match lookup_table (q_table q) db with
  | None => Raise DatabaseError
  | Some t =>
      match position (q_column q) (map fst (t_columns t)) with
      | None => Raise DatabaseError
      | Some i =>
          let ty := nth i (map snd (t_columns t)) TEXT in
          Ok (mkDataFrame (map fst (t_columns t))
                (filter (fun r => sql_ge ty (nth i r CNaN) (q_bound q))
                        (t_rows t)))
      end
  end.
End Query.

(** ** The log file *)

Inductive month : Type :=
| Jan | Feb | Mar | Apr | May | Jun | Jul | Aug | Sep | Oct | Nov | Dec.

(** [datetime.now()]: the fields of a Python [datetime]. *)
Record datetime : Type := mkDatetime {
  year : Z;
  mon : month;
  day : Z;
  hour : Z;
  minute : Z;
  second : Z
}.

Definition month_abbr (m : month) : string :=
  match m with
  | Jan => "Jan" | Feb => "Feb" | Mar => "Mar" | Apr => "Apr"
  | May => "May" | Jun => "Jun" | Jul => "Jul" | Aug => "Aug"
  | Sep => "Sep" | Oct => "Oct" | Nov => "Nov" | Dec => "Dec"
  end.

(** The last decimal digit of a non-negative integer, as a character. *)
Definition zdigit (n : Z) : ascii := ascii_of_nat (Z.to_nat (48 + n mod 10)).

Definition pad2 (n : Z) : string :=
  String (zdigit (n / 10)) (String (zdigit n) EmptyString).

Definition pad4 (n : Z) : string :=
  String (zdigit (n / 1000)) (String (zdigit (n / 100)) (pad2 n)).

(** [now.strftime('%Y-%h-%d-%H:%M:%S')]: [%Y] the year in four digits, [%h]
    the abbreviated month name, [%d], [%H], [%M], [%S] in two digits. *)
Definition strftime (t : datetime) : string :=
  (pad4 (year t) ++ "-" ++ month_abbr (mon t) ++ "-" ++ pad2 (day t)
   ++ "-" ++ pad2 (hour t) ++ ":" ++ pad2 (minute t) ++ ":"
   ++ pad2 (second t))%string.

Definition newline : string := String "010" EmptyString.

(** The text one call of [log_progress] writes. *)
Definition log_entry (t : datetime) (message : string) : string :=
  (strftime t ++ " : " ++ message ++ newline)%string.

(** A file is absent ([None]) or has a content. *)
Definition file_content (f : option string) : string :=
  match f with
  | Some s => s
  | None => EmptyString
  end.

(** [open(path, "a")] and [f.write(text)]: the file is created when absent
    and the text goes after what the file holds. *)
Definition append_file (f : option string) (text : string) : option string :=
  Some (file_content f ++ text)%string.

(** ** The script *)

Definition URL : string :=
  "https://web.archive.org/web/20230902185326/https://en.wikipedia.org/wiki/List_of_countries_by_GDP_%28nominal%29".
Definition db_name : string := "World_Economies.db".
Definition tb_name : string := "Countries_by_GDP".
Definition csv : string := "Countries_by_GDP.csv".

(** [f"SELECT * from {tb_name} WHERE GDP_USD_billions >= 100"]. *)
Definition sql_statement : statement :=
  mkStatement tb_name "GDP_USD_billions" 100.

Inductive connection : Type :=
| NoConnection   (* [sql_conn] is not bound yet *)
| Open
| Closed.

Inductive output : Type :=
| OutText (s : string)
| OutFrame (d : DataFrame).

(** What a run reads and changes: the object store, the variables [df] and
    [sql_conn], the three files, the console and the number of readings of
    the clock so far. The CSV file is represented by the frame written to
    it. *)
Record world : Type := mkWorld {
  w_heap : heap;
  w_df : option ref;
  w_sql_conn : connection;
  w_log : option string;
  w_csv : option DataFrame;
  w_db : database;
  w_stdout : list output;
  w_clock : nat
}.

(** The module-level statements, one constructor per kind of line. *)
Inductive stmt : Type :=
| LogProgress (message : string)
| Extract
| Transform
| LoadToCsv
| Connect
| LoadToDb
| RunQuery
| Close.

Definition program : list stmt :=
  [ LogProgress "Preliminaries complete. Initiating ETL process";
    Extract;
    LogProgress "Data extraction complete. Initiating Transformation process";
    Transform;
    LogProgress "Data transformation complete. Initiating loading process";
    LoadToCsv;
    LogProgress "Data saved to CSV file";
    Connect;
    LogProgress "SQL Connection initiated.";
    LoadToDb;
    LogProgress "Data loaded to Database as table. Running the query";
    RunQuery;
    LogProgress "Process Complete.";
    Close ].

(** How a run ends: every statement was executed, or one raised an
    exception that nothing catches. *)
Inductive outcome : Type :=
| Completed
| Uncaught (at_stmt : stmt) (e : exn).

(** How a statement ends: it returns, or it raises; either way it leaves a
    world. *)
Inductive step : Type :=
| Next (w : world)
| Abort (w : world) (e : exn).

(** A call that raises before it has changed anything. *)
Definition attempt (w : world) (r : res world) : step :=
  match r with
  | Ok w' => Next w'
  | Raise e => Abort w e
  end.

(** [print(x)]. *)
Definition print (x : output) (w : world) : world :=
  mkWorld (w_heap w) (w_df w) (w_sql_conn w) (w_log w) (w_csv w) (w_db w)
    (w_stdout w ++ [x]) (w_clock w).

Section Driver.
(** The environment of a run: the network and the parser, [float], the
    engine's text comparison, the clock ([datetime_now k] is its [k]-th reading)
    and the faults of the file system and of the database ([io_fault s]
    is the exception the environment raises in statement [s], if any; a
    fault strikes before the file or the database is changed). *)
Variable http_get : string -> res string.
Variable html_parser : string -> node.
Variable py_float : string -> res float.
Variable text_ge : cell -> nat -> bool.
Variable datetime_now : nat -> datetime.
Variable io_fault : stmt -> option exn.

Definition guard (s : stmt) (w : world) (k : world -> res world) : res world :=
  match io_fault s with
  | Some e => Raise e
  | None => k w
  end.

(** [log_progress(message)]. *)
Definition log_progress (message : string) (w : world) : res world :=
  guard (LogProgress message) w (fun w =>
    let timestamp := datetime_now (w_clock w) in
    Ok (mkWorld (w_heap w) (w_df w) (w_sql_conn w)
          (append_file (w_log w) (log_entry timestamp message))
          (w_csv w) (w_db w) (w_stdout w) (S (w_clock w)))).

(** [load_to_csv(dataset, csv_path)]: the file is overwritten. *)
Definition load_to_csv (dataset : ref) (w : world) : res world :=
  guard LoadToCsv w (fun w =>
    match deref (w_heap w) dataset with
    | None => Raise NameError
    | Some d =>
        Ok (mkWorld (w_heap w) (w_df w) (w_sql_conn w) (w_log w)
              (Some d) (w_db w) (w_stdout w) (w_clock w))
    end).

(** [load_to_db(dataset, sql_connection, table_name)]. *)
Definition load_to_db (dataset : ref) (table_name : string) (w : world)
  : res world :=
  guard LoadToDb w (fun w =>
    match deref (w_heap w) dataset, w_sql_conn w with
    | Some d, Open =>
        db <- to_sql_replace d table_name (w_db w) ;;
        Ok (mkWorld (w_heap w) (w_df w) (w_sql_conn w) (w_log w)
              (w_csv w) db (w_stdout w) (w_clock w))
    | Some _, Closed => Raise DatabaseError
    | _, _ => Raise NameError
    end).

(** [run_query(query_statement, sql_connection)]: the statement is
    printed, then executed, then its result is printed; when the execution
    raises, the statement has been printed already. *)
Definition run_query (query_statement : statement) (w : world) : step :=
  let w1 := print (OutText (statement_text query_statement)) w in
  match io_fault RunQuery, w_sql_conn w with
  | Some e, _ => Abort w1 e
  | None, Open =>
      match read_sql text_ge query_statement (w_db w) with
      | Ok query_output => Next (print (OutFrame query_output) w1)
      | Raise e => Abort w1 e
      end
  | None, _ => Abort w1 DatabaseError
  end.

Definition set_conn (c : connection) (w : world) : world :=
  mkWorld (w_heap w) (w_df w) c (w_log w) (w_csv w) (w_db w)
    (w_stdout w) (w_clock w).

Definition exec (s : stmt) (w : world) : step :=
  match s with
  | LogProgress message => attempt w (log_progress message w)
  | Extract =>
      (* df = extract(URL, table_attribs) *)
      attempt w
        (d <- extract http_get html_parser URL table_attribs ;;
         let (r, h) := alloc (w_heap w) d in
         Ok (mkWorld h (Some r) (w_sql_conn w) (w_log w) (w_csv w) (w_db w)
               (w_stdout w) (w_clock w)))
  | Transform =>
      (* df = transform(df) *)
      match w_df w with
      | None => Abort w NameError
      | Some r =>
          attempt w
            (rh <- transform py_float r (w_heap w) ;;
             Ok (mkWorld (snd rh) (Some (fst rh)) (w_sql_conn w) (w_log w)
                   (w_csv w) (w_db w) (w_stdout w) (w_clock w)))
      end
  | LoadToCsv =>
      match w_df w with
      | None => Abort w NameError
      | Some r => attempt w (load_to_csv r w)
      end
  | Connect =>
      (* sql_conn = sqlite3.connect('World_Economies.db') *)
      attempt w (guard Connect w (fun w => Ok (set_conn Open w)))
  | LoadToDb =>
      match w_df w with
      | None => Abort w NameError
      | Some r => attempt w (load_to_db r tb_name w)
      end
  | RunQuery =>
      match w_sql_conn w with
      | NoConnection => Abort w NameError
      | _ => run_query sql_statement w
      end
  | Close =>
      (* sql_conn.close() *)
      attempt w
        (guard Close w (fun w =>
           match w_sql_conn w with
           | NoConnection => Raise NameError
           | _ => Ok (set_conn Closed w)
           end))
  end.

(** The statements run in order; the first exception ends the run, in the
    world the statement that raised has left. *)
Fixpoint run (p : list stmt) (w : world) : world * outcome :=
  match p with
  | [] => (w, Completed)
  | s :: p' =>
      match exec s w with
      | Next w' => run p' w'
      | Abort w' e => (w', Uncaught s e)
      end
  end.

(** A run starts with no object, no variable bound and an empty console,
    on the files as the previous runs left them. *)
Definition boot (log : option string) (csv_file : option DataFrame)
  (db : database) (clock : nat) : world :=
  mkWorld [] None NoConnection log csv_file db [] clock.

Definition driver (w : world) : world * outcome := run program w.
End Driver.

(** The messages of the [log_progress] lines of a program, in order. *)
Fixpoint milestones (p : list stmt) : list string :=
  match p with
  | [] => []
  | LogProgress message :: p' => message :: milestones p'
  | _ :: p' => milestones p'
  end.

(** The text that logging [messages] writes when the clock has been read
    [clock] times before. *)
Fixpoint log_text (datetime_now : nat -> datetime) (clock : nat) (messages : list string)
  : string :=
  match messages with
  | [] => EmptyString
  | m :: messages' =>
      (log_entry (datetime_now clock) m ++ log_text datetime_now (S clock) messages')%string
  end.

(** ** Fixtures *)

Definition td (kids : list node) : node := Tag "td" kids.
Definition th (kids : list node) : node := Tag "th" kids.
Definition tr (kids : list node) : node := Tag "tr" kids.
Definition link (s : string) : node := Tag "a" [Text s].

(** A row [name | region | figure] whose name is a hyperlink. *)
Definition country_row (name region figure : string) : node :=
  tr [td [link name]; td [Text region]; td [Text figure]].

(** A page with three table bodies; the third holds a header row, United
    States, the aggregate row World (bold, no hyperlink), a country without
    a figure, and Country X. *)
Definition fixture : node :=
  Tag "[document]" [Tag "html" [Tag "body" [
    Tag "table" [Tag "tbody" [tr [td [Text "navigation"]]]];
    Tag "table" [Tag "tbody" [tr [td [link "Largest economies"]]]];
    Tag "table" [Tag "tbody" [
      tr [th [Text "Country/Territory"]; th [Text "UN region"];
          th [Text "IMF estimate"]];
      country_row "United States" "Americas" "26,854,599";
      tr [td [Tag "b" [Text "World"]]; td [Text emdash]; td [Text emdash]];
      country_row (emdash ++ "placeholder country" ++ emdash)%string
                  "Oceania" emdash;
      country_row "Country X" "Asia" "1,200" ]]]]].

Definition text_cell (s : string) : cell := CObj (Text s).

Definition fixture_extracted : DataFrame :=
  mkDataFrame ["Country"; "GDP_USD_millions"]
    [ [text_cell "United States"; text_cell "26,854,599"];
      [text_cell "Country X"; text_cell "1,200"] ].

(** The doubles nearest to 26854.60 and to 1.20. *)
Definition f_26854_60 : float := S754_finite false 7381736239818342 (-38).
Definition f_1_20 : float := S754_finite false 5404319552844595 (-52).
(** The double nearest to 23315.08. *)
Definition f_23315_08 : float := S754_finite false 6408800390631916 (-38).

(** [x] is a double nearest to the rational [num / den]: its mantissa lies
    strictly inside a binade, so its two neighbours are one unit in the
    last place away, and [x] is within half a unit of [num / den]. *)
Definition nearest_double (num den : Z) (x : float) : bool :=
  match x with
  | S754_finite false m e =>
      ((2 ^ 52 <? Zpos m) && (Zpos m <? 2 ^ 53) && (e <? 0) && (0 <? den)
       && (2 * Z.abs (Zpos m * den - num * 2 ^ (- e)) <=? den))%Z
  | _ => false
  end.

Definition fixture_transformed : DataFrame :=
  mkDataFrame ["Country"; "GDP_USD_billions"]
    [ [text_cell "United States"; CFloat f_26854_60];
      [text_cell "Country X"; CFloat f_1_20] ].

Definition fixture_queried : DataFrame :=
  mkDataFrame ["Country"; "GDP_USD_billions"]
    [ [text_cell "United States"; CFloat f_26854_60] ].

(** ** Well-formed documents and frames *)

(** A parser never yields an empty string node. *)
Fixpoint no_empty_text (n : node) : bool :=
  match n with
  | Text s => negb (String.eqb s EmptyString)
  | Tag _ kids => forallb no_empty_text kids
  end.

(** Every row of a frame has one cell per column. *)
Definition rectangular (d : DataFrame) : Prop :=
  Forall (fun r => List.length r = List.length (columns d)) (rows d).

(** The rows that the outcomes of [extract_row] add to a frame whose
    columns are [table_attribs]. *)
Definition emitted (outs : list (option (list (string * cell))))
  : list (list cell) :=
  flat_map (fun o => match o with
                     | Some dict => [map snd dict]
                     | None => []
                     end) outs.

(** The text of an element: the strings below it, in document order
    ([get_text]). *)
Fixpoint get_text (n : node) : string :=
  match n with
  | Text s => s
  | Tag _ kids =>
      (fix cat (l : list node) : string :=
         match l with
         | [] => EmptyString
         | k :: l' => (get_text k ++ cat l')%string
         end) kids
  end.

(** [sub in s] for strings. *)
Fixpoint is_substring (sub s : string) : bool :=
  String.prefix sub s
  || match s with
     | EmptyString => false
     | String _ s' => is_substring sub s'
     end.

(** A page with two table bodies only. *)
Definition two_bodies : node :=
  Tag "[document]" [
    Tag "table" [Tag "tbody" [country_row "United States" "Americas" "26,854,599"]];
    Tag "table" [Tag "tbody" [country_row "Country X" "Asia" "1,200"]]].

(** A row whose third cell holds the em dash followed by a line break. *)
Definition dash_row : node :=
  country_row "Atlantis" "Oceania" (emdash ++ newline)%string.

(** A row with a hyperlinked name and two data cells only. *)
Definition short_row : node :=
  tr [td [link "Atlantis"]; td [Text "1,200"]].

(** A row whose figure is followed by a footnote mark. *)
Definition footnote_row : node :=
  tr [td [link "Atlantis"]; td [Text "Oceania"];
      td [Text "1,200"; Tag "sup" [Text "[n 1]"]]].

(** The frame of a sequence of records (country, raw GDP string), as
    [extract] builds it. *)
Definition frame_of_records (records : list (node * string)) : DataFrame :=
  mkDataFrame table_attribs
    (map (fun r => [CObj (fst r); text_cell (snd r)]) records).

(** The records with their GDP strings replaced by the billions of the
    floats read from them. *)
Definition billions_rows (records : list (node * string)) (floats : list float)
  : list (list cell) :=
  map (fun rf => [CObj (fst (fst rf)); CFloat (to_billions (snd rf))])
      (combine records floats).

(** The store after [transform] on the frame extracted from the fixture. *)
Definition fixture_heap_after : heap :=
  [ mkDataFrame ["Country"; "GDP_USD_millions"] (rows fixture_transformed);
    fixture_transformed ].

(** [value >= 100] for a cell of the billions column. *)
Definition at_least_100 (value : cell) : bool :=
  match value with
  | CFloat f => fleb (float_of_Z 100) f
  | CObj _ => false
  end.

(** The number of tables of a database that are called [name]. *)
Definition tables_named (name : string) (db : database) : nat :=
  List.length (filter (fun nt => String.eqb (fst nt) name) db).

(** A frame with an economy of exactly 100 billions between a larger and a
    smaller one. *)
Definition boundary_frame : DataFrame :=
  mkDataFrame ["Country"; "GDP_USD_billions"]
    [ [text_cell "Country X"; CFloat f_1_20];
      [text_cell "Boundary"; CFloat (float_of_Z 100)];
      [text_cell "United States"; CFloat f_26854_60] ].






Definition is_connect (s : stmt) : bool :=
  match s with
  | Connect => true
  | _ => false
  end.

(** The connection after a statement that returned, and after a sequence
    of them. *)
Definition conn_step (s : stmt) (c : connection) : connection :=
  match s with
  | Connect => Open
  | Close => Closed
  | _ => c
  end.

Definition conn_after (p : list stmt) (c : connection) : connection :=
  fold_left (fun c s => conn_step s c) p c.

(** A page whose third table body lists the smaller economy first. *)
Definition ascending_page : node :=
  Tag "[document]" [
    Tag "table" [Tag "tbody" []];
    Tag "table" [Tag "tbody" []];
    Tag "table" [Tag "tbody" [
      country_row "Country X" "Asia" "1,200";
      country_row "United States" "Americas" "26,854,599" ]]].

(** A clock for the examples. *)
Definition example_clock (k : nat) : datetime :=
  mkDatetime 2026 Nov 4 9 5 (Z.of_nat k).

(** An environment in which storing into the database fails. *)
Definition database_fault (s : stmt) : option exn :=
  match s with
  | LoadToDb => Some DatabaseError
  | _ => None
  end.

(** A frame whose object cells are all strings. *)
Definition is_text (c : cell) : bool :=
  match c with
  | CObj (Text _) => true
  | _ => false
  end.

Definition strings_only (d : DataFrame) : Prop :=
  Forall (fun r => forallb is_text r = true) (rows d).


(** A page whose third table body holds [rws]. *)
Definition page_of_rows (rws : list node) : node :=
  Tag "[document]" [
    Tag "table" [Tag "tbody" []];
    Tag "table" [Tag "tbody" []];
    Tag "table" [Tag "tbody" rws]].

(** Records of which the second has no figure. *)
Definition records_with_gap : list (node * string) :=
  [ (Text "United States", "26,854,599");
    (Text "Atlantis", "n/a");
    (Text "Country X", "1,200") ].

(** A network on which every fetch fails, and one that serves a page to be
    parsed as the fixture. *)
Definition offline (url : string) : res string := Raise ConnectionError.
Definition online (url : string) : res string := Ok EmptyString.
Definition parse_fixture (page : string) : node := fixture.

(** An environment without faults, and an engine that never selects a
    text value. *)
Definition no_fault (s : stmt) : option exn := None.
Definition never_ge (value : cell) (bound : nat) : bool := false.

(** The statements that write the CSV file, the database or the console. *)
Definition is_sink (s : stmt) : bool :=
  match s with
  | LoadToCsv | LoadToDb | RunQuery | Connect | Close => true
  | _ => false
  end.

(** The rows whose record values are strings: the first child of the
    hyperlink of the first data cell, and the first child of the third data
    cell, when there is one, is a string and not an element. On these rows
    [pd.DataFrame(data_dict, index=[0])] takes both values as scalars. *)
Definition first_is_text (n : node) : bool :=
  match contents n with
  | Tag _ _ :: _ => false
  | _ => true
  end.

Definition text_values (row : node) : bool :=
  match find_all "td" row with
  | [] => true
  | c0 :: rest =>
      match find "a" c0 with
      | None => true
      | Some a => first_is_text a
      end
      && match nth_error (c0 :: rest) 2 with
         | None => true
         | Some c2 => first_is_text c2
         end
  end.


(** * Properties *)

(** ** Documents *)

Section NodeInduction.
Variable P : node -> Prop.
Hypothesis P_text : forall s, P (Text s).
Hypothesis P_tag : forall name kids, Forall P kids -> P (Tag name kids).

Fixpoint node_induction (n : node) : P n :=
  match n with
  | Text s => P_text s
  | Tag name kids =>
      P_tag name kids
        ((fix all (l : list node) : Forall P l :=
            match l with
            | [] => Forall_nil P
            | k :: l' => Forall_cons k (node_induction k) (all l')
            end) kids)
  end.
End NodeInduction.

Lemma find_all_tag (name nm : string) (kids : list node) :
  find_all name (Tag nm kids) =
  flat_map (fun k => (if is_tag name k then [k] else []) ++ find_all name k) kids.
Proof.
  induction kids as [|k kids IH]; [reflexivity|].
  simpl flat_map. rewrite <- IH. simpl. now rewrite <- app_assoc.
Qed.

Lemma find_all_no_empty_text (name : string) (n : node) :
  no_empty_text n = true ->
  Forall (fun k => no_empty_text k = true) (find_all name n).
Proof.
  induction n as [s|nm kids IH] using node_induction; intros Hn.
  - constructor.
  - rewrite find_all_tag. simpl in Hn. rewrite forallb_forall in Hn.
    induction IH as [|k kids Hk _ IHkids]; simpl; [constructor|].
    assert (Hk' : no_empty_text k = true) by (apply Hn; now left).
    rewrite !Forall_app. repeat split.
    + destruct (is_tag name k); constructor; [assumption|constructor].
    + now apply Hk.
    + apply IHkids. intros x Hx. apply Hn. now right.
Qed.

Lemma find_no_empty_text (name : string) (n k : node) :
  no_empty_text n = true -> find name n = Some k -> no_empty_text k = true.
Proof.
  intros Hn Hk. unfold find in Hk.
  pose proof (find_all_no_empty_text name n Hn) as Hall.
  destruct (find_all name n); [discriminate|].
  injection Hk as <-. now inversion Hall.
Qed.


(** ** extract *)

Lemma index_ok {A : Type} (l : list A) (i : nat) (a : A) :
  index l i = Ok a <-> nth_error l i = Some a.
Proof.
  unfold index. destruct (nth_error l i); split; congruence.
Qed.


(** What a row that yields a record looks like. *)
Lemma extract_row_emits (row : node) (dict : list (string * cell)) :
  extract_row row = Ok (Some dict) ->
  exists c0 rest a c2 country gdp,
    find_all "td" row = c0 :: rest /\
    find "a" c0 = Some a /\
    nth_error (c0 :: rest) 2 = Some c2 /\
    tag_contains emdash c2 = false /\
    hd_error (contents a) = Some country /\
    hd_error (contents c2) = Some gdp /\
    dict = data_dict country gdp.
Proof.
  unfold extract_row.
  destruct (find_all "td" row) as [|c0 rest] eqn:Ecol; [discriminate|].
  destruct (find "a" c0) as [a|] eqn:Ea; [|discriminate].
  destruct (index (c0 :: rest) 2) as [c2|] eqn:Ec2; [|discriminate].
  apply index_ok in Ec2. cbn [bind].
  destruct (tag_contains emdash c2) eqn:Edash; [discriminate|].
  destruct (index (contents a) 0) as [country|] eqn:Ecountry; [|discriminate].
  destruct (index (contents c2) 0) as [gdp|] eqn:Egdp; [|discriminate].
  apply index_ok in Ecountry, Egdp. cbn [bind]. intros [= <-].
  exists c0, rest, a, c2, country, gdp.
  repeat split; assumption.
Qed.

Lemma concat_row_attribs (d : DataFrame) (country gdp : node) :
  columns d = table_attribs ->
  concat_row d (data_dict country gdp) =
  mkDataFrame table_attribs (rows d ++ [[CObj country; CObj gdp]]).
Proof.
  destruct d as [cols rws]. simpl. intros ->.
  unfold concat_row. simpl. f_equal. f_equal.
  induction rws as [|r rws IH]; simpl; [reflexivity|].
  now rewrite app_nil_r, IH.
Qed.

(** The loop over the rows adds the records of the rows that yield one, in
    the order of the rows, and stops at the first exception. *)
Lemma extract_rows_spec (rws : list node) (d : DataFrame) :
  columns d = table_attribs ->
  extract_rows rws d =
  (outs <- mapM extract_row rws ;;
   Ok (mkDataFrame table_attribs (rows d ++ emitted outs))).
Proof.
  revert d. induction rws as [|row rws IH]; intros d Hd.
  - simpl. destruct d as [cols r]. simpl in *. subst. now rewrite app_nil_r.
  - simpl. destruct (extract_row row) as [[dict|]|e] eqn:Erow; cbn [bind].
    + destruct (extract_row_emits _ _ Erow)
        as (c0 & rest & a & c2 & country & gdp & _ & _ & _ & _ & _ & _ & ->).
      rewrite concat_row_attribs by assumption.
      rewrite IH by reflexivity. simpl rows.
      destruct (mapM extract_row rws); cbn [bind]; [|reflexivity].
      simpl. now rewrite <- app_assoc.
    + rewrite IH by assumption.
      destruct (mapM extract_row rws); reflexivity.
    + reflexivity.
Qed.

(** C5: the extractor takes the third table body of the document in
    document order (index 2) whenever there are at least three, and loops
    over its rows; with fewer than three table bodies it raises
    [IndexError]. *)
Theorem extract_selects_third_tbody (data : node) (table_attributes : list string) :
  (3 <= List.length (find_all "tbody" data) ->
   exists t,
     nth_error (find_all "tbody" data) 2 = Some t /\
     extract_document data table_attributes =
     extract_rows (find_all "tr" t) (empty_frame table_attributes)) /\
  (List.length (find_all "tbody" data) < 3 ->
   extract_document data table_attributes = Raise IndexError).
Proof.
  unfold extract_document, index. split; intros Hlen.
  - destruct (nth_error (find_all "tbody" data) 2) as [t|] eqn:Et.
    + exists t. split; reflexivity.
    + apply nth_error_None in Et. lia.
  - destruct (nth_error (find_all "tbody" data) 2) as [t|] eqn:Et.
    + assert (2 < List.length (find_all "tbody" data)).
      { apply nth_error_Some. congruence. }
      lia.
    + reflexivity.
Qed.

Lemma extract_selects_third_tbody_witness :
  (exists t,
     nth_error (find_all "tbody" fixture) 2 = Some t /\
     extract_document fixture table_attribs =
     extract_rows (find_all "tr" t) (empty_frame table_attribs)) /\
  extract_document two_bodies table_attribs = Raise IndexError.
Proof.
  split.
  - apply (extract_selects_third_tbody fixture table_attribs).
    vm_compute. apply le_n.
  - apply (extract_selects_third_tbody two_bodies table_attribs).
    vm_compute. apply le_n.
Defined.

(** C3 as stated fails: the text of the third cell of [dash_row] contains
    the em dash, and the row is not skipped; it yields a record whose GDP
    value contains the em dash. Besides, [short_row] has data cells and a
    hyperlink and no third cell, and yields no record: the loop raises
    [IndexError]; and the GDP value of the record of [footnote_row] is the
    first child of its third cell, not the text of the cell. *)
Lemma dash_in_text_not_skipped :
  ((exists c2,
      nth_error (find_all "td" dash_row) 2 = Some c2 /\
      is_substring emdash (get_text c2) = true) /\
   extract_row dash_row =
   Ok (Some (data_dict (Text "Atlantis") (Text (emdash ++ newline)%string)))) /\
  (find_all "td" short_row <> [] /\
   (exists c0 a, hd_error (find_all "td" short_row) = Some c0 /\
                 find "a" c0 = Some a) /\
   extract_row short_row = Raise IndexError) /\
  ((exists c2,
      nth_error (find_all "td" footnote_row) 2 = Some c2 /\
      get_text c2 = "1,200[n 1]") /\
   extract_row footnote_row =
   Ok (Some (data_dict (Text "Atlantis") (Text "1,200")))).
Proof.
  split; [|split].
  - split; [|reflexivity].
    exists (td [Text (emdash ++ newline)%string]). split; reflexivity.
  - split; [discriminate|]. split; [|reflexivity].
    exists (td [link "Atlantis"]), (link "Atlantis"). split; reflexivity.
  - split; [|reflexivity].
    exists (td [Text "1,200"; Tag "sup" [Text "[n 1]"]]). split; reflexivity.
Qed.

(** A record of a row whose record values are strings is a pair of
    strings; the second is not the em dash, and the first is not empty in a
    document without empty string nodes. *)
Lemma extract_row_emits_text (row : node) (dict : list (string * cell)) :
  text_values row = true ->
  extract_row row = Ok (Some dict) ->
  exists country gdp,
    dict = data_dict (Text country) (Text gdp) /\
    gdp <> emdash /\
    (no_empty_text row = true -> country <> EmptyString).
Proof.
  intros Hrow Erow.
  destruct (extract_row_emits _ _ Erow)
    as (c0 & rest & a & c2 & country & gdp
        & Hcol & Ha & Hc2 & Hdash & Hcountry & Hgdp & ->).
  unfold text_values in Hrow. rewrite Hcol, Ha, Hc2 in Hrow.
  apply andb_prop in Hrow as [Hta Htc]. unfold first_is_text in Hta, Htc.
  unfold tag_contains in Hdash.
  destruct (contents a) as [|x ka] eqn:Eka; [discriminate|].
  destruct (contents c2) as [|y kc]; [discriminate|].
  injection Hcountry as ->. injection Hgdp as ->.
  destruct country as [country|nm kids]; [|discriminate].
  destruct gdp as [gdp|nm kids]; [|discriminate].
  exists country, gdp. split; [reflexivity|]. split.
  - intros ->. cbn [existsb node_eq_str] in Hdash.
    rewrite String.eqb_refl in Hdash. discriminate.
  - intros Hwf ->.
    assert (Hc0 : no_empty_text c0 = true).
    { pose proof (find_all_no_empty_text "td" row Hwf) as Hall.
      rewrite Hcol in Hall. now inversion Hall. }
    pose proof (find_no_empty_text "a" c0 a Hc0 Ha) as Hwa.
    destruct a as [s|nm kids]; [discriminate|].
    simpl in Eka, Hwa. subst kids. simpl in Hwa. discriminate.
Qed.

(** C3, amended: in the loop over the rows of the selected table (the
    frame having the script's two columns), a row without data cells is
    skipped, the frame staying as it is; a row whose first data cell has no
    hyperlink below it is skipped; a row whose third data cell has a child
    that is exactly the em dash string is skipped; any other row with a
    third data cell, whose hyperlink and third cell both have a string as
    their first child, adds to the frame the record of these two strings,
    country first. Such a record never has the em dash string as its GDP
    value, and its country is not the empty string when the document has no
    empty string node. On a row whose record values are strings, a pass
    of the loop that returns either leaves the frame as it is or adds such
    a record. (Rows whose first children are elements are left out of the
    statement.) *)
Theorem extract_row_filter (row : node) (rws : list node) (d : DataFrame) :
  columns d = table_attribs ->
  (find_all "td" row = [] ->
   extract_rows (row :: rws) d = extract_rows rws d) /\
  (forall c0 rest,
     find_all "td" row = c0 :: rest -> find "a" c0 = None ->
     extract_rows (row :: rws) d = extract_rows rws d) /\
  (forall c0 rest a c2,
     find_all "td" row = c0 :: rest -> find "a" c0 = Some a ->
     nth_error (c0 :: rest) 2 = Some c2 -> tag_contains emdash c2 = true ->
     extract_rows (row :: rws) d = extract_rows rws d) /\
  (forall c0 rest a c2 country gdp,
     find_all "td" row = c0 :: rest -> find "a" c0 = Some a ->
     nth_error (c0 :: rest) 2 = Some c2 -> tag_contains emdash c2 = false ->
     hd_error (contents a) = Some (Text country) ->
     hd_error (contents c2) = Some (Text gdp) ->
     extract_rows (row :: rws) d =
       extract_rows rws
         (mkDataFrame ["Country"; "GDP_USD_millions"]
            (rows d ++ [[text_cell country; text_cell gdp]])) /\
     gdp <> emdash /\
     (no_empty_text row = true -> country <> EmptyString)) /\
  (forall d',
     text_values row = true ->
     extract_rows [row] d = Ok d' ->
     d' = d \/
     exists country gdp,
       d' = mkDataFrame ["Country"; "GDP_USD_millions"]
              (rows d ++ [[text_cell country; text_cell gdp]]) /\
       gdp <> emdash /\
       (no_empty_text row = true -> country <> EmptyString)).
Proof.
  intros Hd.
  split; [|split; [|split; [|split]]].
  - intros H. simpl. unfold extract_row. now rewrite H.
  - intros c0 rest Hcol Ha. simpl. unfold extract_row. now rewrite Hcol, Ha.
  - intros c0 rest a c2 Hcol Ha Hc2 Hdash. simpl. unfold extract_row, index.
    rewrite Hcol, Ha, Hc2. cbn [bind]. now rewrite Hdash.
  - intros c0 rest a c2 country gdp Hcol Ha Hc2 Hdash Hcountry Hgdp.
    split; [|split].
    + assert (Hrow : extract_row row
                     = Ok (Some (data_dict (Text country) (Text gdp)))).
      { unfold extract_row, index. rewrite Hcol, Ha, Hc2. cbn [bind].
        rewrite Hdash.
        destruct (contents a) as [|x ka]; [discriminate|].
        destruct (contents c2) as [|y kc]; [discriminate|].
        simpl in *. congruence. }
      simpl. rewrite Hrow. cbn [bind].
      now rewrite concat_row_attribs by assumption.
    + intros ->. unfold tag_contains in Hdash.
      destruct (contents c2) as [|y kc]; [discriminate|].
      injection Hgdp as ->. cbn [existsb node_eq_str] in Hdash.
      rewrite String.eqb_refl in Hdash. discriminate.
    + intros Hwf ->.
      assert (Hc0 : no_empty_text c0 = true).
      { pose proof (find_all_no_empty_text "td" row Hwf) as Hall.
        rewrite Hcol in Hall. now inversion Hall. }
      pose proof (find_no_empty_text "a" c0 a Hc0 Ha) as Hwa.
      destruct a as [s|nm kids]; [discriminate|].
      simpl in Hcountry, Hwa.
      destruct kids as [|k kids]; [discriminate|].
      injection Hcountry as ->. simpl in Hwa. discriminate.
  - intros d' Htext H. simpl in H.
    destruct (extract_row row) as [[dict|]|e] eqn:Erow; cbn [bind] in H.
    + destruct (extract_row_emits_text _ _ Htext Erow)
        as (country & gdp & -> & Hgdp & Hcountry).
      rewrite concat_row_attribs in H by assumption. injection H as <-.
      right. exists country, gdp. split; [reflexivity|].
      split; assumption.
    + injection H as <-. now left.
    + discriminate.
Qed.

Lemma extract_row_filter_witness :
  extract_rows [tr [th [Text "Country/Territory"]]] (empty_frame table_attribs)
  = Ok (empty_frame table_attribs) /\
  extract_rows
    [tr [td [Tag "b" [Text "World"]]; td [Text emdash]; td [Text emdash]]]
    (empty_frame table_attribs)
  = Ok (empty_frame table_attribs) /\
  extract_rows [country_row "Nowhere" "Oceania" emdash]
    (empty_frame table_attribs)
  = Ok (empty_frame table_attribs) /\
  extract_rows [country_row "Country X" "Asia" "1,200"]
    (empty_frame table_attribs)
  = Ok (mkDataFrame ["Country"; "GDP_USD_millions"]
          [[text_cell "Country X"; text_cell "1,200"]]) /\
  "1,200" <> emdash /\ "Country X" <> EmptyString.
Proof.
  split; [|split; [|split]].
  - destruct (extract_row_filter (tr [th [Text "Country/Territory"]]) []
                (empty_frame table_attribs) eq_refl) as (H & _).
    apply H. reflexivity.
  - destruct (extract_row_filter
                (tr [td [Tag "b" [Text "World"]]; td [Text emdash];
                     td [Text emdash]]) []
                (empty_frame table_attribs) eq_refl) as (_ & H & _).
    eapply H; reflexivity.
  - destruct (extract_row_filter (country_row "Nowhere" "Oceania" emdash) []
                (empty_frame table_attribs) eq_refl) as (_ & _ & H & _).
    eapply H; reflexivity.
  - destruct (extract_row_filter (country_row "Country X" "Asia" "1,200") []
                (empty_frame table_attribs) eq_refl) as (_ & _ & _ & H & _).
    destruct (H (td [link "Country X"])
                [td [Text "Asia"]; td [Text "1,200"]]
                (link "Country X") (td [Text "1,200"]) "Country X" "1,200"
                eq_refl eq_refl eq_refl eq_refl eq_refl eq_refl)
      as (Hstep & Hgdp & Hcountry).
    split; [exact Hstep|]. split; [exact Hgdp|].
    apply Hcountry. reflexivity.
Defined.

(** ** transform *)

Lemma mapM_Forall2 {A B : Type} (f : A -> res B) (l : list A) (l' : list B) :
  mapM f l = Ok l' <-> Forall2 (fun a b => f a = Ok b) l l'.
Proof.
  revert l'. induction l as [|a l IH]; intros l'; simpl.
  - split.
    + intros [= <-]. constructor.
    + intros H. now inversion H.
  - destruct (f a) as [b|e] eqn:Ea; cbn [bind].
    + destruct (mapM f l) as [bs|e] eqn:Em; cbn [bind].
      * split.
        -- intros [= <-]. constructor; [assumption|]. now apply IH.
        -- intros H. inversion H; subst.
           assert (b = y) by congruence. subst y.
           assert (Ok bs = Ok l'0) as [= ->] by (now apply IH).
           reflexivity.
      * split; [discriminate|].
        intros H. inversion H; subst.
        assert (Raise e = Ok l'0) by (now apply IH). discriminate.
    + split; [discriminate|]. intros H. inversion H; subst. congruence.
Qed.

Lemma mapM_length {A B : Type} (f : A -> res B) (l : list A) (l' : list B) :
  mapM f l = Ok l' -> List.length l' = List.length l.
Proof.
  intros H. apply mapM_Forall2 in H. symmetry.
  eapply Forall2_length; eassumption.
Qed.

Lemma position_lt (label : string) (labels : list string) (i : nat) :
  position label labels = Some i -> i < List.length labels.
Proof.
  revert i. induction labels as [|c labels IH]; intros i; simpl; [discriminate|].
  destruct (String.eqb c label).
  - intros [= <-]. lia.
  - destruct (position label labels) as [j|]; [|discriminate].
    intros [= <-]. specialize (IH j eq_refl). lia.
Qed.

Lemma nth_set_nth {A : Type} (i : nat) (a default : A) (l : list A) :
  i < List.length l -> nth i (set_nth i a l) default = a.
Proof.
  revert i. induction l as [|x l IH]; intros [|i] Hi; simpl in *; try lia.
  - reflexivity.
  - apply IH. lia.
Qed.

Lemma length_set_nth {A : Type} (i : nat) (a : A) (l : list A) :
  List.length (set_nth i a l) = List.length l.
Proof.
  revert i. induction l as [|x l IH]; intros [|i]; simpl; auto.
Qed.

Lemma nth_error_set_nth_other {A : Type} (i j : nat) (a : A) (l : list A) :
  i <> j -> nth_error (set_nth i a l) j = nth_error l j.
Proof.
  revert i j. induction l as [|x l IH]; intros [|i] [|j] Hij; simpl; auto.
  congruence.
Qed.

Lemma nth_error_set_nth_same {A : Type} (i : nat) (a x : A) (l : list A) :
  nth_error l i = Some x -> nth_error (set_nth i a l) i = Some a.
Proof.
  revert i. induction l as [|y l IH]; intros [|i]; simpl; try discriminate; auto.
Qed.

(** The rows after a column assignment: row by row, one cell replaced. *)
Lemma set_rows_Forall2 (i : nat) (rws : list (list cell)) (values : list cell) :
  List.length values = List.length rws ->
  Forall2 (fun r r' => exists v, r' = set_nth i v r) rws
    (map (fun rv => set_nth i (snd rv) (fst rv)) (combine rws values)).
Proof.
  revert values. induction rws as [|r rws IH]; intros [|v values] Hlen;
    simpl in *; try discriminate; constructor.
  - now exists v.
  - apply IH. lia.
Qed.

Lemma set_rows_column (i : nat) (rws : list (list cell)) (values : list cell) :
  List.length values = List.length rws ->
  Forall (fun r => i < List.length r) rws ->
  map (fun r => nth i r CNaN)
      (map (fun rv => set_nth i (snd rv) (fst rv)) (combine rws values))
  = values.
Proof.
  revert values. induction rws as [|r rws IH]; intros [|v values] Hlen Hall;
    simpl in *; try discriminate; [reflexivity|].
  inversion Hall; subst. f_equal.
  - now apply nth_set_nth.
  - apply IH; [lia|assumption].
Qed.

Section TransformFacts.
Variable py_float : string -> res float.

(** What a successful call of [transform_frame] computed. *)
Lemma transform_frame_ok (d dm dr : DataFrame) :
  transform_frame py_float d = Ok (dm, dr) ->
  exists i floats,
    position "GDP_USD_millions" (columns d) = Some i /\
    occurrences "GDP_USD_millions" (columns d) <= 1 /\
    mapM (to_float py_float) (map (fun r => nth i r CNaN) (rows d))
    = Ok floats /\
    dm = set_column d "GDP_USD_millions" (map CFloat (map to_billions floats)) /\
    dr = rename_column dm "GDP_USD_millions" "GDP_USD_billions".
Proof.
  unfold transform_frame, column_tolist.
  destruct (position "GDP_USD_millions" (columns d)) as [i|] eqn:Epos;
    [|discriminate].
  destruct (Nat.ltb 1 (occurrences "GDP_USD_millions" (columns d))) eqn:Eocc;
    [discriminate|].
  apply Nat.ltb_ge in Eocc. cbn [bind].
  destruct (mapM (to_float py_float) (map (fun r => nth i r CNaN) (rows d)))
    as [floats|e] eqn:Em; [|discriminate].
  cbn [bind]. intros [= <- <-].
  exists i, floats. repeat split; assumption.
Qed.

Lemma transform_frame_rows (d dm dr : DataFrame) :
  transform_frame py_float d = Ok (dm, dr) ->
  exists i,
    position "GDP_USD_millions" (columns d) = Some i /\
    columns dm = columns d /\
    rows dr = rows dm /\
    Forall2 (fun r r' => exists v, r' = set_nth i v r) (rows d) (rows dm).
Proof.
  intros H.
  destruct (transform_frame_ok _ _ _ H) as (i & floats & Hi & _ & Hm & -> & ->).
  exists i. unfold set_column. rewrite Hi. simpl.
  repeat split; try reflexivity; try assumption.
  apply set_rows_Forall2. rewrite !length_map.
  apply mapM_length in Hm. now rewrite length_map in Hm.
Qed.
End TransformFacts.

Lemma float_of_digits_reads : reads_digits float_of_digits.
Proof.
  intros s z H. unfold float_of_digits. now rewrite H.
Qed.

Lemma remove_commas_filter (s : string) :
  list_ascii_of_string (remove_commas s) =
  filter (fun c => negb (Ascii.eqb c ",")) (list_ascii_of_string s).
Proof.
  induction s as [|c s IH]; simpl; [reflexivity|].
  destruct (Ascii.eqb c ","); simpl; now rewrite IH.
Qed.

Lemma billions_rows_set (records : list (node * string)) (floats : list float) :
  List.length floats = List.length records ->
  map (fun rv => set_nth 1 (snd rv) (fst rv))
      (combine (map (fun r => [CObj (fst r); text_cell (snd r)]) records)
               (map CFloat (map to_billions floats)))
  = billions_rows records floats.
Proof.
  unfold billions_rows. revert floats.
  induction records as [|r records IH]; intros [|f floats] Hlen;
    simpl in *; try discriminate; [reflexivity|].
  f_equal. apply IH. lia.
Qed.

(** The transformer on the frame of a sequence of records. *)
Lemma transform_frame_of_records (py_float : string -> res float)
  (records : list (node * string)) (floats : list float) :
  Forall2 (fun r f => py_float (remove_commas (snd r)) = Ok f) records floats ->
  transform_frame py_float (frame_of_records records)
  = Ok (mkDataFrame ["Country"; "GDP_USD_millions"] (billions_rows records floats),
        mkDataFrame ["Country"; "GDP_USD_billions"] (billions_rows records floats)).
Proof.
  intros H. unfold transform_frame.
  assert (Hcol : column_tolist (frame_of_records records) "GDP_USD_millions"
                 = Ok (map (fun r => text_cell (snd r)) records)).
  { unfold column_tolist, frame_of_records. simpl. now rewrite map_map. }
  rewrite Hcol. cbn [bind].
  assert (Hm : mapM (to_float py_float)
                 (map (fun r => text_cell (snd r)) records) = Ok floats).
  { apply mapM_Forall2. clear Hcol.
    induction H as [|r f recs fls Hr _ IH]; simpl.
    - constructor.
    - constructor; [exact Hr|exact IH]. }
  rewrite Hm. cbn [bind].
  unfold set_column, rename_column, frame_of_records. simpl.
  rewrite billions_rows_set; [reflexivity|].
  symmetry. eapply Forall2_length; eassumption.
Qed.

(** C2: on the frame of any sequence of records whose GDP strings, once
    their commas are removed, are read by [float] as [floats], the
    transformer yields the same records with the GDP value
    [np.round(f/1000, 2)], under the label [GDP_USD_billions] in the frame
    it returns. Removing the commas keeps every other character, in order.
    The string "23,315,081" becomes the double nearest to 23315.08. *)
Theorem transform_converts (py_float : string -> res float)
  (records : list (node * string)) (floats : list float) :
  reads_digits py_float ->
  Forall2 (fun r f => py_float (remove_commas (snd r)) = Ok f) records floats ->
  transform_frame py_float (frame_of_records records)
  = Ok (mkDataFrame ["Country"; "GDP_USD_millions"] (billions_rows records floats),
        mkDataFrame ["Country"; "GDP_USD_billions"] (billions_rows records floats))
  /\ (forall f,
        to_billions f =
        fdiv (rint (fmul (fdiv f (float_of_Z 1000)) (float_of_Z 100)))
             (float_of_Z 100))
  /\ (forall s,
        list_ascii_of_string (remove_commas s) =
        filter (fun c => negb (Ascii.eqb c ",")) (list_ascii_of_string s))
  /\ transform_frame py_float
       (frame_of_records [(Text "United States", "23,315,081")])
     = Ok (mkDataFrame ["Country"; "GDP_USD_millions"]
             [[text_cell "United States"; CFloat f_23315_08]],
           mkDataFrame ["Country"; "GDP_USD_billions"]
             [[text_cell "United States"; CFloat f_23315_08]])
  /\ nearest_double 2331508 100 f_23315_08 = true.
Proof.
  intros Hdigits Hfloats.
  split; [now apply transform_frame_of_records|].
  split; [reflexivity|].
  split; [exact remove_commas_filter|].
  split; [|reflexivity].
  rewrite (transform_frame_of_records py_float
             [(Text "United States", "23,315,081")] [float_of_Z 23315081]).
  - reflexivity.
  - constructor; [|constructor]. apply Hdigits. reflexivity.
Qed.

Lemma transform_converts_witness :
  transform_frame float_of_digits fixture_extracted
  = Ok (mkDataFrame ["Country"; "GDP_USD_millions"] (rows fixture_transformed),
        fixture_transformed).
Proof.
  destruct (transform_converts float_of_digits
              [(Text "United States", "26,854,599"); (Text "Country X", "1,200")]
              [float_of_Z 26854599; float_of_Z 1200]
              float_of_digits_reads) as (H & _).
  - constructor; [reflexivity|]. constructor; [reflexivity|]. constructor.
  - exact H.
Defined.

(** ** The object store *)



Lemma deref_lt (h : heap) (r : ref) (d : DataFrame) :
  deref h r = Some d -> r < List.length h.
Proof.
  intros H. apply nth_error_Some. unfold deref in H. congruence.
Qed.

(** C10: [transform] changes the object it is given. After a call that
    returns, the caller's frame has kept its labels (the column is still
    called [GDP_USD_millions]) and that column holds the rounded billions;
    the frame that is returned is a new object, the caller's frame with the
    column renamed; no other object changes. *)
Theorem transform_mutates_argument (py_float : string -> res float)
  (dataset r : ref) (h h' : heap) :
  transform py_float dataset h = Ok (r, h') ->
  exists d raw floats,
    let billions := map CFloat (map to_billions floats) in
    let d_after := set_column d "GDP_USD_millions" billions in
    deref h dataset = Some d /\
    column_tolist d "GDP_USD_millions" = Ok raw /\
    mapM (to_float py_float) raw = Ok floats /\
    deref h' dataset = Some d_after /\
    columns d_after = columns d /\
    (rectangular d -> column_tolist d_after "GDP_USD_millions" = Ok billions) /\
    r <> dataset /\
    deref h r = None /\
    deref h' r =
      Some (rename_column d_after "GDP_USD_millions" "GDP_USD_billions") /\
    (forall r0, r0 <> dataset -> r0 <> r -> deref h' r0 = deref h r0).
Proof.
  unfold transform.
  destruct (deref h dataset) as [d|] eqn:Ed; [|discriminate].
  destruct (transform_frame py_float d) as [[dm dr]|e] eqn:Et; [|discriminate].
  cbn [bind fst snd]. intros [= <- <-].
  destruct (transform_frame_ok _ _ _ _ Et)
    as (i & floats & Hi & Hocc & Hm & -> & ->).
  pose proof (deref_lt _ _ _ Ed) as Hlt.
  exists d, (map (fun r => nth i r CNaN) (rows d)), floats.
  cbn zeta.
  assert (Hcols : columns (set_column d "GDP_USD_millions"
                             (map CFloat (map to_billions floats))) = columns d).
  { unfold set_column. now rewrite Hi. }
  repeat split.
  - unfold column_tolist. rewrite Hi.
    now apply Nat.ltb_ge in Hocc as ->.
  - assumption.
  - unfold deref. rewrite nth_error_app1 by (rewrite length_set_nth; lia).
    eapply nth_error_set_nth_same. exact Ed.
  - assumption.
  - intros Hrect. unfold column_tolist. rewrite Hcols, Hi.
    apply Nat.ltb_ge in Hocc as ->.
    unfold set_column. rewrite Hi. simpl rows. f_equal.
    apply set_rows_column.
    + rewrite !length_map. apply mapM_length in Hm.
      now rewrite length_map in Hm.
    + apply position_lt in Hi. unfold rectangular in Hrect.
      eapply Forall_impl; [|exact Hrect]. simpl. intros a Ha. lia.
  - rewrite length_set_nth. lia.
  - unfold deref. apply nth_error_None. rewrite length_set_nth. lia.
  - unfold deref. rewrite nth_error_app2 by lia. now rewrite Nat.sub_diag.
  - intros r0 Hne Hnew. rewrite length_set_nth in Hnew. unfold deref.
    destruct (Nat.lt_ge_cases r0 (List.length h)) as [Hlt0|Hge0].
    + rewrite nth_error_app1 by (rewrite length_set_nth; lia).
      apply nth_error_set_nth_other. congruence.
    + assert (nth_error h r0 = None) as -> by (apply nth_error_None; lia).
      apply nth_error_None. rewrite length_app, length_set_nth. simpl. lia.
Qed.

Lemma transform_mutates_argument_witness :
  exists d raw floats,
    let billions := map CFloat (map to_billions floats) in
    let d_after := set_column d "GDP_USD_millions" billions in
    deref [fixture_extracted] 0 = Some d /\
    column_tolist d "GDP_USD_millions" = Ok raw /\
    mapM (to_float float_of_digits) raw = Ok floats /\
    deref fixture_heap_after 0 = Some d_after /\
    columns d_after = columns d /\
    (rectangular d -> column_tolist d_after "GDP_USD_millions" = Ok billions) /\
    1 <> 0 /\
    deref [fixture_extracted] 1 = None /\
    deref fixture_heap_after 1 =
      Some (rename_column d_after "GDP_USD_millions" "GDP_USD_billions") /\
    (forall r0, r0 <> 0 -> r0 <> 1 ->
                deref fixture_heap_after r0 = deref [fixture_extracted] r0).
Proof.
  apply (transform_mutates_argument float_of_digits 0 1
           [fixture_extracted] fixture_heap_after).
  reflexivity.
Defined.

(** ** The database *)

Lemma lookup_app {A : Type} (k : string) (l1 l2 : list (string * A)) :
  lookup k (l1 ++ l2) =
  match lookup k l1 with
  | Some v => Some v
  | None => lookup k l2
  end.
Proof.
  induction l1 as [|[k' v] l1 IH]; simpl; [reflexivity|].
  destruct (String.eqb k k'); [reflexivity|exact IH].
Qed.

Lemma lookup_drop_same (name : string) (db : database) :
  lookup name (drop_table name db) = None.
Proof.
  unfold drop_table. induction db as [|[k t] db IH]; simpl; [reflexivity|].
  destruct (String.eqb k name) eqn:E; simpl; [exact IH|].
  rewrite String.eqb_sym, E. exact IH.
Qed.

Lemma lookup_drop_other (name other : string) (db : database) :
  other <> name -> lookup other (drop_table name db) = lookup other db.
Proof.
  intros Hne. unfold drop_table.
  induction db as [|[k t] db IH]; simpl; [reflexivity|].
  destruct (String.eqb k name) eqn:E; simpl.
  - apply String.eqb_eq in E. subst k.
    destruct (String.eqb other name) eqn:E'; [|exact IH].
    apply String.eqb_eq in E'. contradiction.
  - now rewrite IH.
Qed.

Lemma drop_table_unnamed (name : string) (db : database) :
  Forall (fun nt => String.eqb (fst nt) name = false) (drop_table name db).
Proof.
  unfold drop_table. apply Forall_forall. intros nt Hin.
  apply filter_In in Hin. destruct Hin as [_ H].
  now apply negb_true_iff in H.
Qed.

(** Inserting rows into the only table called [name], created last. *)
Lemma insert_rows_last (name : string) (cols : list (string * sqltype))
  (rws acc : list (list cell)) (db : database) :
  Forall (fun nt => String.eqb (fst nt) name = false) db ->
  insert_rows name rws (db ++ [(name, mkTable cols acc)]) =
  if forallb (forallb storable) rws
  then Ok (db ++ [(name, mkTable cols (acc ++ rws))])
  else Raise DatabaseError.
Proof.
  intros Hdb. revert acc. induction rws as [|r rws IH]; intros acc; simpl.
  - now rewrite app_nil_r.
  - unfold insert_row. destruct (forallb storable r); simpl; [|reflexivity].
    rewrite map_app. simpl. rewrite String.eqb_refl. simpl.
    assert (Hsame : map (fun nt : string * table =>
                           if String.eqb (fst nt) name
                           then (fst nt,
                                 mkTable (t_columns (snd nt))
                                         (t_rows (snd nt) ++ [r]))
                           else nt) db = db).
    { clear IH. induction Hdb as [|nt db Hnt _ IHdb]; simpl; [reflexivity|].
      now rewrite Hnt, IHdb. }
    rewrite Hsame, IH. now rewrite <- app_assoc.
Qed.

Lemma to_sql_replace_result (d : DataFrame) (name : string) (db : database) :
  to_sql_replace d name db =
  if forallb (forallb storable) (rows d)
  then Ok (drop_table name db ++ [(name, mkTable (schema d) (rows d))])
  else Raise DatabaseError.
Proof.
  unfold to_sql_replace, create_table.
  now rewrite insert_rows_last by apply drop_table_unnamed.
Qed.

Lemma tables_named_replaced (name : string) (t : table) (db : database) :
  tables_named name (drop_table name db ++ [(name, t)]) = 1.
Proof.
  unfold tables_named. rewrite filter_app, length_app. simpl.
  rewrite String.eqb_refl. simpl.
  assert (H : filter (fun nt : string * table => String.eqb (fst nt) name)
                     (drop_table name db) = []).
  { pose proof (drop_table_unnamed name db) as Hall.
    induction Hall as [|nt l Hnt _ IH]; simpl; [reflexivity|].
    now rewrite Hnt. }
  now rewrite H.
Qed.

Lemma to_sql_replace_lookup (d : DataFrame) (name : string) (db db' : database) :
  to_sql_replace d name db = Ok db' ->
  lookup_table name db' = Some (mkTable (schema d) (rows d)) /\
  tables_named name db' = 1 /\
  (forall other, other <> name -> lookup_table other db' = lookup_table other db).
Proof.
  rewrite to_sql_replace_result.
  destruct (forallb (forallb storable) (rows d)); [|discriminate].
  intros [= <-]. unfold lookup_table. repeat split.
  - rewrite lookup_app, lookup_drop_same. simpl. now rewrite String.eqb_refl.
  - apply tables_named_replaced.
  - intros other Hne. rewrite lookup_app, lookup_drop_other by assumption.
    destruct (lookup other db); [reflexivity|]. simpl.
    destruct (String.eqb other name) eqn:E; [|reflexivity].
    apply String.eqb_eq in E. contradiction.
Qed.

(** C6: loading replaces the table. Whatever the database held, after a
    load that returns, the table of that name is the one made from the new
    frame: its rows are exactly the frame's rows, there is one table of
    that name, and the other tables are as before. The load returns
    whenever the connection is open, every cell can be stored and the
    environment raises no fault. *)
Theorem load_to_db_replaces (io_fault : stmt -> option exn)
  (dataset : ref) (table_name : string) (w : world) (d : DataFrame) :
  deref (w_heap w) dataset = Some d ->
  (forall w',
     load_to_db io_fault dataset table_name w = Ok w' ->
     lookup_table table_name (w_db w') = Some (mkTable (schema d) (rows d)) /\
     tables_named table_name (w_db w') = 1 /\
     (forall other, other <> table_name ->
                    lookup_table other (w_db w') = lookup_table other (w_db w)))
  /\
  (io_fault LoadToDb = None -> w_sql_conn w = Open ->
   forallb (forallb storable) (rows d) = true ->
   exists w', load_to_db io_fault dataset table_name w = Ok w').
Proof.
  intros Hd. unfold load_to_db, guard. split.
  - intros w'. destruct (io_fault LoadToDb); [discriminate|].
    rewrite Hd. destruct (w_sql_conn w); try discriminate.
    destruct (to_sql_replace d table_name (w_db w)) as [db'|e] eqn:Esql;
      [|discriminate].
    cbn [bind]. intros [= <-]. simpl.
    now apply to_sql_replace_lookup.
  - intros -> -> Hst. rewrite Hd, to_sql_replace_result, Hst. cbn [bind].
    eexists. reflexivity.
Qed.

Lemma load_to_db_replaces_witness :
  let w := mkWorld [fixture_queried] (Some 0) Open None None
             [(tb_name, mkTable (schema fixture_transformed)
                                (rows fixture_transformed))] [] 0 in
  exists w',
    load_to_db (fun _ => None) 0 tb_name w = Ok w' /\
    lookup_table tb_name (w_db w')
    = Some (mkTable (schema fixture_queried) (rows fixture_queried)).
Proof.
  intros w.
  destruct (load_to_db_replaces (fun _ => None) 0 tb_name w fixture_queried
              eq_refl) as [Hafter Hreturns].
  destruct (Hreturns eq_refl eq_refl eq_refl) as [w' Hw'].
  exists w'. split; [exact Hw'|].
  now apply (Hafter w' Hw').
Defined.

(** ** The query *)

(** The statement of the script is the text of its f-string. *)
Lemma sql_statement_text :
  statement_text sql_statement =
  "SELECT * from Countries_by_GDP WHERE GDP_USD_billions >= 100".
Proof. reflexivity. Qed.

Lemma schema_columns (g : nat -> sqltype) (labels : list string) (start : nat) :
  let sch := map (fun ic : nat * string => (snd ic, g (fst ic)))
                 (combine (seq start (List.length labels)) labels) in
  map fst sch = labels /\
  map snd sch = map g (seq start (List.length labels)).
Proof.
  revert start. induction labels as [|c labels IH]; intros start; simpl.
  - split; reflexivity.
  - destruct (IH (S start)) as [H1 H2]. simpl in H1, H2.
    split; f_equal; assumption.
Qed.

Lemma schema_names (d : DataFrame) : map fst (schema d) = columns d.
Proof.
  apply (schema_columns (column_type d) (columns d) 0).
Qed.

Lemma schema_type (d : DataFrame) (i : nat) :
  i < List.length (columns d) ->
  nth i (map snd (schema d)) TEXT = column_type d i.
Proof.
  intros Hi. unfold schema.
  destruct (schema_columns (column_type d) (columns d) 0) as [_ H].
  simpl in H. rewrite H.
  rewrite (nth_indep _ TEXT (column_type d 0)) by (now rewrite length_map, length_seq).
  rewrite map_nth. now rewrite seq_nth.
Qed.

Lemma SFcompare_antisym (f g : float) :
  SFcompare g f = option_map CompOpp (SFcompare f g).
Proof.
  destruct f as [s1| s1| |s1 m1 e1], g as [s2| s2| |s2 m2 e2]; simpl;
    try reflexivity;
    try (destruct s1; reflexivity);
    try (destruct s2; reflexivity);
    try (destruct s1, s2; reflexivity).
  assert (Hm : PosDef.Pos.compare_cont Eq m2 m1 =
               CompOpp (PosDef.Pos.compare_cont Eq m1 m2)).
  { symmetry. exact (Pos.compare_cont_antisym m1 m2 Eq). }
  destruct s1, s2; simpl; try reflexivity.
  - rewrite (Z.compare_antisym e1 e2).
    destruct (e1 ?= e2)%Z; simpl; try reflexivity.
    now rewrite Hm.
  - rewrite (Z.compare_antisym e1 e2).
    destruct (e1 ?= e2)%Z; simpl; try reflexivity.
    now rewrite Hm.
Qed.

Lemma fltb_not_fleb (f g : float) : fltb f g = true -> fleb g f = false.
Proof.
  unfold fltb, fleb, SFltb, SFleb. rewrite (SFcompare_antisym f g).
  destruct (SFcompare f g) as [[| |]|]; simpl; congruence.
Qed.

(** The query over a database whose table was made from a frame with a
    column of floats. *)
Lemma read_sql_loaded (text_ge : cell -> nat -> bool)
  (d : DataFrame) (db : database) (i : nat) :
  position "GDP_USD_billions" (columns d) = Some i ->
  Forall (fun r => is_float (nth i r CNaN) = true) (rows d) ->
  lookup_table tb_name db = Some (mkTable (schema d) (rows d)) ->
  read_sql text_ge sql_statement db =
    Ok (mkDataFrame (columns d)
          (filter (fun r => at_least_100 (nth i r CNaN)) (rows d))).
Proof.
  intros Hpos Hfloat Htab.
  unfold read_sql. simpl q_table. rewrite Htab. simpl t_columns.
  rewrite schema_names. simpl q_column. rewrite Hpos.
  rewrite schema_type by (eapply position_lt; eassumption).
  unfold column_type.
  assert (Hall : forallb (fun r => is_float (nth i r CNaN)) (rows d) = true).
  { apply forallb_forall. now apply Forall_forall. }
  rewrite Hall. simpl t_rows. f_equal. f_equal.
  apply filter_ext_in. intros r Hr.
  rewrite Forall_forall in Hfloat. specialize (Hfloat r Hr).
  destruct (nth i r CNaN); [discriminate|]. reflexivity.
Qed.

(** C4: over a table loaded from a frame whose billions column holds
    floats, the query returns exactly the rows whose value is at least 100,
    in the order of the table: a row is in the result if and only if it is
    in the table and its value is at least 100. The value 100 itself is
    selected, a value below 100 is not. *)
Theorem query_selects_at_least_100 (text_ge : cell -> nat -> bool)
  (d : DataFrame) (db db' : database) (i : nat) :
  position "GDP_USD_billions" (columns d) = Some i ->
  Forall (fun r => is_float (nth i r CNaN) = true) (rows d) ->
  to_sql_replace d tb_name db = Ok db' ->
  read_sql text_ge sql_statement db' =
    Ok (mkDataFrame (columns d)
          (filter (fun r => at_least_100 (nth i r CNaN)) (rows d))) /\
  (forall r,
     In r (filter (fun r => at_least_100 (nth i r CNaN)) (rows d)) <->
     In r (rows d) /\ at_least_100 (nth i r CNaN) = true) /\
  at_least_100 (CFloat (float_of_Z 100)) = true /\
  (forall f, fltb f (float_of_Z 100) = true -> at_least_100 (CFloat f) = false).
Proof.
  intros Hpos Hfloat Hload.
  destruct (to_sql_replace_lookup _ _ _ _ Hload) as (Htab & _ & _).
  split; [|split; [|split]].
  - now apply read_sql_loaded.
  - intros r. apply filter_In.
  - reflexivity.
  - intros f Hlt. simpl. now apply fltb_not_fleb.
Qed.

Lemma query_selects_at_least_100_witness :
  read_sql (fun _ _ => true) sql_statement
    [(tb_name, mkTable (schema boundary_frame) (rows boundary_frame))]
  = Ok (mkDataFrame ["Country"; "GDP_USD_billions"]
          [ [text_cell "Boundary"; CFloat (float_of_Z 100)];
            [text_cell "United States"; CFloat f_26854_60] ]).
Proof.
  destruct (query_selects_at_least_100 (fun _ _ => true) boundary_frame []
              [(tb_name, mkTable (schema boundary_frame) (rows boundary_frame))]
              1 eq_refl) as (H & _).
  - repeat constructor.
  - reflexivity.
  - exact H.
Defined.

(** ** The log file *)

Lemma string_app_assoc (a b c : string) :
  ((a ++ b) ++ c)%string = (a ++ (b ++ c))%string.
Proof.
  induction a as [|x a IH]; simpl; [reflexivity|]. now rewrite IH.
Qed.

Lemma string_app_nil_r (a : string) : (a ++ EmptyString)%string = a.
Proof.
  induction a as [|x a IH]; simpl; [reflexivity|]. now rewrite IH.
Qed.










(** ** The driver *)

Lemma milestones_app (p q : list stmt) :
  milestones (p ++ q) = milestones p ++ milestones q.
Proof.
  induction p as [|s p IH]; simpl; [reflexivity|].
  destruct s; simpl; now rewrite IH.
Qed.

Lemma log_text_app (datetime_now : nat -> datetime) (clock : nat) (a b : list string) :
  log_text datetime_now clock (a ++ b) =
  (log_text datetime_now clock a ++ log_text datetime_now (clock + List.length a) b)%string.
Proof.
  revert clock. induction a as [|m a IH]; intros clock;
    cbn [log_text List.length app String.append].
  - now rewrite Nat.add_0_r.
  - rewrite IH, Nat.add_succ_r. symmetry. apply string_app_assoc.
Qed.

Section DriverFacts.
Variable http_get : string -> res string.
Variable html_parser : string -> node.
Variable py_float : string -> res float.
Variable text_ge : cell -> nat -> bool.
Variable datetime_now : nat -> datetime.
Variable io_fault : stmt -> option exn.

Let exec' := exec http_get html_parser py_float text_ge datetime_now io_fault.
Let run' := run http_get html_parser py_float text_ge datetime_now io_fault.

(** What one statement that returns does to the log file, the clock and
    the connection. *)
Lemma exec_effect (s : stmt) (w w' : world) :
  exec' s w = Next w' ->
  file_content (w_log w') =
    (file_content (w_log w) ++ log_text datetime_now (w_clock w) (milestones [s]))%string /\
  w_clock w' = w_clock w + List.length (milestones [s]) /\
  w_sql_conn w' = conn_step s (w_sql_conn w).
Proof.
  unfold exec', exec.
  destruct s; simpl;
    unfold attempt, log_progress, load_to_csv, load_to_db, run_query, guard.
  - destruct (io_fault (LogProgress message)); [discriminate|].
    intros [= <-]. simpl. rewrite string_app_nil_r. repeat split. lia.
  - destruct (extract http_get html_parser URL table_attribs); [|discriminate].
    cbn [bind]. intros [= <-]. simpl.
    rewrite string_app_nil_r. repeat split. lia.
  - destruct (w_df w) as [r|]; [|discriminate].
    destruct (transform py_float r (w_heap w)); [|discriminate].
    cbn [bind]. intros [= <-]. simpl.
    rewrite string_app_nil_r. repeat split. lia.
  - destruct (w_df w) as [r|]; [|discriminate].
    destruct (io_fault LoadToCsv); [discriminate|].
    destruct (deref (w_heap w) r); [|discriminate].
    intros [= <-]. simpl. rewrite string_app_nil_r. repeat split. lia.
  - destruct (io_fault Connect); [discriminate|].
    intros [= <-]. simpl. rewrite string_app_nil_r. repeat split. lia.
  - destruct (w_df w) as [r|]; [|discriminate].
    destruct (io_fault LoadToDb); [discriminate|].
    destruct (deref (w_heap w) r); [|discriminate].
    destruct (w_sql_conn w) eqn:Ec; try discriminate.
    destruct (to_sql_replace d tb_name (w_db w)); [|discriminate].
    cbn [bind]. intros [= <-]. simpl.
    rewrite string_app_nil_r. repeat split. lia.
  - destruct (w_sql_conn w) eqn:Ec; try discriminate;
      destruct (io_fault RunQuery); try discriminate.
    destruct (read_sql text_ge sql_statement (w_db w)); [|discriminate].
    intros [= <-]. simpl. rewrite string_app_nil_r. repeat split; [lia|].
    congruence.
  - destruct (io_fault Close); [discriminate|].
    destruct (w_sql_conn w) eqn:Ec; try discriminate;
      intros [= <-]; simpl; rewrite string_app_nil_r; repeat split; lia.
Qed.

(** A statement that raises leaves the log file, the clock and the
    connection as they were. *)
Lemma exec_abort (s : stmt) (w w' : world) (e : exn) :
  exec' s w = Abort w' e ->
  w_log w' = w_log w /\ w_clock w' = w_clock w /\
  w_sql_conn w' = w_sql_conn w.
Proof.
  unfold exec', exec.
  destruct s; simpl; unfold attempt, run_query.
  - destruct (log_progress datetime_now io_fault message w); [discriminate|].
    intros [= <- _]. repeat split.
  - destruct (extract http_get html_parser URL table_attribs) as [d|];
      cbn [bind].
    + destruct (alloc (w_heap w) d). discriminate.
    + intros [= <- _]. repeat split.
  - destruct (w_df w) as [r|]; [|intros [= <- _]; repeat split].
    destruct (transform py_float r (w_heap w)); cbn [bind]; [discriminate|].
    intros [= <- _]. repeat split.
  - destruct (w_df w) as [r|]; [|intros [= <- _]; repeat split].
    destruct (load_to_csv io_fault r w); [discriminate|].
    intros [= <- _]. repeat split.
  - destruct (guard io_fault Connect w (fun w0 => Ok (set_conn Open w0)));
      [discriminate|].
    intros [= <- _]. repeat split.
  - destruct (w_df w) as [r|]; [|intros [= <- _]; repeat split].
    destruct (load_to_db io_fault r tb_name w); [discriminate|].
    intros [= <- _]. repeat split.
  - destruct (w_sql_conn w) eqn:Ec; [intros [= <- _]; now repeat split| |];
      destruct (io_fault RunQuery);
      try (intros [= <- _]; now repeat split).
    destruct (read_sql text_ge sql_statement (w_db w)); [discriminate|].
    intros [= <- _]. now repeat split.
  - destruct (guard io_fault Close w _); [discriminate|].
    intros [= <- _]. repeat split.
Qed.

(** A run ends after a prefix of the program that returned; when it ends
    early, the next statement is the one that raised, from the world that
    the prefix left. *)
Lemma run_prefix (p : list stmt) (w w' : world) (out : outcome) :
  run' p w = (w', out) ->
  exists pre w1,
    run' pre w = (w1, Completed) /\
    match out with
    | Completed => pre = p /\ w' = w1
    | Uncaught s e =>
        exists post, p = pre ++ s :: post /\ exec' s w1 = Abort w' e
    end.
Proof.
  unfold run', exec'. revert w. induction p as [|s p IH]; intros w; simpl.
  - intros [= <- <-]. exists [], w. repeat split.
  - destruct (exec http_get html_parser py_float text_ge datetime_now io_fault s w)
      as [w1|w1 e] eqn:Es.
    + intros H. destruct (IH _ H) as (pre & w2 & Hpre & Hout).
      exists (s :: pre), w2. split.
      * simpl. now rewrite Es.
      * destruct out as [|s' e'].
        -- destruct Hout as [-> ->]. split; reflexivity.
        -- destruct Hout as (post & -> & He). exists post. split; auto.
    + intros [= <- <-]. exists [], w. split; [reflexivity|].
      exists p. split; [reflexivity|assumption].
Qed.

Lemma run_completed (p : list stmt) (w w' : world) :
  run' p w = (w', Completed) ->
  file_content (w_log w') =
    (file_content (w_log w) ++ log_text datetime_now (w_clock w) (milestones p))%string /\
  w_clock w' = w_clock w + List.length (milestones p) /\
  w_sql_conn w' = conn_after p (w_sql_conn w).
Proof.
  unfold run'. revert w. induction p as [|s p IH]; intros w H; simpl in H.
  - injection H as <-. simpl. rewrite string_app_nil_r. repeat split. lia.
  - destruct (exec http_get html_parser py_float text_ge datetime_now io_fault s w)
      as [w1|w1 e] eqn:Es; [|discriminate].
    destruct (IH _ H) as (Hlog & Hclock & Hconn).
    destruct (exec_effect s w w1 Es) as (Hlog1 & Hclock1 & Hconn1).
    change (milestones (s :: p)) with (milestones ([s] ++ p)).
    rewrite milestones_app, log_text_app, length_app.
    rewrite Hlog, Hlog1, Hclock, Hclock1, Hconn, Hconn1.
    rewrite string_app_assoc. repeat split. lia.
Qed.

(** However a run ends, its log file is the one it found followed by the
    entries of the statements that returned, and its connection is the one
    these statements left. *)
Lemma run_log (p : list stmt) (w w' : world) (out : outcome) :
  run' p w = (w', out) ->
  exists pre w1,
    run' pre w = (w1, Completed) /\
    match out with
    | Completed => pre = p /\ w' = w1
    | Uncaught s e =>
        exists post, p = pre ++ s :: post /\ exec' s w1 = Abort w' e
    end /\
    file_content (w_log w') =
      (file_content (w_log w)
       ++ log_text datetime_now (w_clock w) (milestones pre))%string /\
    w_sql_conn w' = conn_after pre (w_sql_conn w).
Proof.
  intros H. destruct (run_prefix _ _ _ _ H) as (pre & w1 & Hpre & Hout).
  exists pre, w1. split; [exact Hpre|]. split; [exact Hout|].
  destruct (run_completed _ _ _ Hpre) as (Hlog & _ & Hconn).
  destruct out as [|s e].
  - destruct Hout as [_ ->]. split; assumption.
  - destruct Hout as (post & _ & He).
    destruct (exec_abort _ _ _ _ He) as (Hl & _ & Hc).
    rewrite Hl, Hc. split; assumption.
Qed.

(** A statement that raises ends the run then and there. *)
Lemma run_raise (pre post : list stmt) (s : stmt) (e : exn) (w w1 w2 : world) :
  run' pre w = (w1, Completed) ->
  exec' s w1 = Abort w2 e ->
  run' (pre ++ s :: post) w = (w2, Uncaught s e).
Proof.
  unfold run', exec'. revert w. induction pre as [|s0 pre IH]; intros w; simpl.
  - intros [= <-] He. now rewrite He.
  - destruct (exec http_get html_parser py_float text_ge datetime_now io_fault s0 w)
      as [w0|w0 e0]; [|discriminate].
    apply IH.
Qed.
End DriverFacts.

Lemma program_prefix_conn (pre post : list stmt) (s : stmt) :
  program = pre ++ s :: post ->
  conn_after pre NoConnection =
  if existsb is_connect pre then Open else NoConnection.
Proof.
  intros H.
  assert (Hpre : pre = firstn (List.length pre) program).
  { rewrite H, firstn_app, Nat.sub_diag, firstn_all. simpl.
    now rewrite app_nil_r. }
  assert (Hlen : List.length pre < 14).
  { apply (f_equal (@List.length stmt)) in H.
    rewrite length_app in H. simpl in H. lia. }
  rewrite Hpre. clear Hpre H.
  remember (List.length pre) as k eqn:Hk. clear Hk.
  do 14 (destruct k as [|k]; [reflexivity|]). lia.
Qed.



(** C9: nothing catches an exception. When the statements before a
    statement of the script have returned and that statement raises, the
    run ends there with that exception. However a run ends, the log file
    holds what it held followed by the entries of the milestones of the
    statements that returned, and nothing else. A run that ends with an
    exception leaves the connection open when it had been opened and
    unbound otherwise, never closed; only a run that completes closes
    it. *)
Theorem uncaught_exception_ends_run
  (http_get : string -> res string) (html_parser : string -> node)
  (py_float : string -> res float) (text_ge : cell -> nat -> bool)
  (datetime_now : nat -> datetime) (io_fault : stmt -> option exn)
  (log : option string) (csv_file : option DataFrame) (db : database)
  (clock : nat) :
  let exec' := exec http_get html_parser py_float text_ge datetime_now io_fault in
  let run' := run http_get html_parser py_float text_ge datetime_now io_fault in
  let driver' := driver http_get html_parser py_float text_ge datetime_now io_fault in
  let w0 := boot log csv_file db clock in
  (forall pre s post w1 w2 e,
     program = pre ++ s :: post ->
     run' pre w0 = (w1, Completed) ->
     exec' s w1 = Abort w2 e ->
     driver' w0 = (w2, Uncaught s e)) /\
  (forall w' out,
     driver' w0 = (w', out) ->
     exists pre w1,
       run' pre w0 = (w1, Completed) /\
       file_content (w_log w') =
         (file_content log ++ log_text datetime_now clock (milestones pre))%string /\
       match out with
       | Completed => pre = program /\ w' = w1 /\ w_sql_conn w' = Closed
       | Uncaught s e =>
           (exists post, program = pre ++ s :: post) /\
           exec' s w1 = Abort w' e /\
           w_sql_conn w' =
             (if existsb is_connect pre then Open else NoConnection) /\
           w_sql_conn w' <> Closed
       end).
Proof.
  intros exec' run' driver' w0. split.
  - intros pre s post w1 w2 e Hprog Hpre Hraise.
    unfold driver', driver. rewrite Hprog.
    eapply run_raise; eassumption.
  - intros w' out Hrun. unfold driver', driver in Hrun.
    destruct (run_log _ _ _ _ _ _ _ _ _ _ Hrun)
      as (pre & w1 & Hpre & Hout & Hlog & Hconn).
    exists pre, w1. split; [exact Hpre|]. split; [exact Hlog|].
    simpl in Hconn. destruct out as [|s e].
    + destruct Hout as [-> ->]. repeat split. exact Hconn.
    + destruct Hout as (post & Hprog & Hraise).
      rewrite (program_prefix_conn _ _ _ Hprog) in Hconn.
      repeat split.
      * now exists post.
      * exact Hraise.
      * exact Hconn.
      * rewrite Hconn. destruct (existsb is_connect pre); discriminate.
Qed.

Lemma uncaught_exception_ends_run_witness :
  (exists w1,
     driver (fun _ => Ok EmptyString) (fun _ => fixture)
       (fun _ => Raise ValueError) (fun _ _ => false) example_clock
       (fun _ => None) (boot None None [] 0)
     = (w1, Uncaught Transform ValueError) /\
     w_sql_conn w1 = NoConnection /\
     w_log w1 =
       Some ("2026-Nov-04-09:05:00 : Preliminaries complete. Initiating ETL process"
             ++ newline
             ++ "2026-Nov-04-09:05:01 : Data extraction complete. Initiating Transformation process"
             ++ newline)%string) /\
  (exists w2,
     driver (fun _ => Ok EmptyString) (fun _ => fixture)
       float_of_digits (fun _ _ => false) example_clock
       database_fault (boot None None [] 0)
     = (w2, Uncaught LoadToDb DatabaseError) /\
     w_sql_conn w2 = Open).
Proof.
  split.
  - eexists. split; [|split].
    + refine (proj1 (uncaught_exception_ends_run
                       (fun _ => Ok EmptyString) (fun _ => fixture)
                       (fun _ => Raise ValueError) (fun _ _ => false)
                       example_clock (fun _ => None) None None [] 0)
                    (firstn 3 program) Transform (skipn 4 program) _ _
                    ValueError eq_refl _ _).
      * vm_compute. reflexivity.
      * reflexivity.
    + reflexivity.
    + reflexivity.
  - eexists. split; [vm_compute; reflexivity|reflexivity].
Defined.

(** ** Order *)

(** C7: the records leave the pipeline in the order of the rows of the
    document (stated for records of strings). The extracted frame holds the
    records of the rows that yield one, in row order; the transformed frame has, row by row, the same
    cells with only the GDP cell replaced (so no row is moved, dropped,
    merged or added); the table holds the rows of the frame that was
    loaded; the query keeps a sub-sequence of the rows of the table. *)
Theorem pipeline_preserves_order (py_float : string -> res float)
  (text_ge : cell -> nat -> bool) (data : node) (d dm dr : DataFrame) :
  extract_document data table_attribs = Ok d ->
  strings_only d ->
  transform_frame py_float d = Ok (dm, dr) ->
  (exists t outs,
     nth_error (find_all "tbody" data) 2 = Some t /\
     mapM extract_row (find_all "tr" t) = Ok outs /\
     rows d = emitted outs) /\
  Forall2 (fun r r' => exists v, r' = set_nth 1 v r) (rows d) (rows dr) /\
  rows dm = rows dr /\
  (forall db db',
     to_sql_replace dr tb_name db = Ok db' ->
     exists t, lookup_table tb_name db' = Some t /\ t_rows t = rows dr) /\
  (forall db out,
     read_sql text_ge sql_statement db = Ok out ->
     exists t keep,
       lookup_table tb_name db = Some t /\ rows out = filter keep (t_rows t)).
Proof.
  intros Hextract _ Htransform.
  unfold extract_document in Hextract.
  destruct (index (find_all "tbody" data) 2) as [t|] eqn:Et; [|discriminate].
  apply index_ok in Et. cbn [bind] in Hextract.
  rewrite extract_rows_spec in Hextract by reflexivity.
  destruct (mapM extract_row (find_all "tr" t)) as [outs|] eqn:Eouts;
    [|discriminate].
  cbn [bind] in Hextract. injection Hextract as <-.
  destruct (transform_frame_rows _ _ _ _ Htransform)
    as (i & Hi & _ & Hrows & Hall).
  simpl in Hi. injection Hi as <-.
  split; [|split; [|split; [|split]]].
  - exists t, outs. repeat split; assumption.
  - rewrite Hrows. exact Hall.
  - now symmetry.
  - intros db db' Hload.
    destruct (to_sql_replace_lookup _ _ _ _ Hload) as (Htab & _).
    eexists. split; [exact Htab|reflexivity].
  - intros db out. unfold read_sql.
    destruct (lookup_table (q_table sql_statement) db) as [tab|] eqn:Etab;
      [|discriminate].
    destruct (position (q_column sql_statement) (map fst (t_columns tab)))
      as [j|]; [|discriminate].
    intros [= <-]. eexists. eexists. split; [exact Etab|reflexivity].
Qed.

Lemma pipeline_preserves_order_witness :
  extract_document ascending_page table_attribs
  = Ok (frame_of_records [(Text "Country X", "1,200");
                          (Text "United States", "26,854,599")]) /\
  transform_frame float_of_digits
    (frame_of_records [(Text "Country X", "1,200");
                       (Text "United States", "26,854,599")])
  = Ok (mkDataFrame ["Country"; "GDP_USD_millions"]
          [ [text_cell "Country X"; CFloat f_1_20];
            [text_cell "United States"; CFloat f_26854_60] ],
        mkDataFrame ["Country"; "GDP_USD_billions"]
          [ [text_cell "Country X"; CFloat f_1_20];
            [text_cell "United States"; CFloat f_26854_60] ]) /\
  Forall2 (fun r r' => exists v, r' = set_nth 1 v r)
    [ [text_cell "Country X"; text_cell "1,200"];
      [text_cell "United States"; text_cell "26,854,599"] ]
    [ [text_cell "Country X"; CFloat f_1_20];
      [text_cell "United States"; CFloat f_26854_60] ].
Proof.
  split; [reflexivity|]. split; [reflexivity|].
  refine (proj1 (proj2 (pipeline_preserves_order float_of_digits
                          (fun _ _ => false) ascending_page
                          (frame_of_records
                             [(Text "Country X", "1,200");
                              (Text "United States", "26,854,599")])
                          (mkDataFrame ["Country"; "GDP_USD_millions"]
                             [ [text_cell "Country X"; CFloat f_1_20];
                               [text_cell "United States"; CFloat f_26854_60] ])
                          (mkDataFrame ["Country"; "GDP_USD_billions"]
                             [ [text_cell "Country X"; CFloat f_1_20];
                               [text_cell "United States"; CFloat f_26854_60] ])
                          _ _ _))).
  - reflexivity.
  - repeat constructor.
  - reflexivity.
Defined.

(** ** End to end *)

(** C1: on the fixture page the extractor yields the two records
    (United States, "26,854,599") and (Country X, "1,200"), in that order;
    the transformer maps them to (United States, 26854.60) and
    (Country X, 1.20), the doubles nearest to these decimals; and, over the
    table loaded from them into any database, the query returns the United
    States record alone. *)
Theorem fixture_end_to_end (py_float : string -> res float)
  (text_ge : cell -> nat -> bool) (db : database) :
  reads_digits py_float ->
  extract_document fixture table_attribs = Ok fixture_extracted /\
  transform_frame py_float fixture_extracted
  = Ok (mkDataFrame ["Country"; "GDP_USD_millions"] (rows fixture_transformed),
        fixture_transformed) /\
  nearest_double 2685460 100 f_26854_60 = true /\
  nearest_double 120 100 f_1_20 = true /\
  exists db',
    to_sql_replace fixture_transformed tb_name db = Ok db' /\
    read_sql text_ge sql_statement db' = Ok fixture_queried.
Proof.
  intros Hdigits.
  split; [reflexivity|]. split; [|split; [reflexivity|split; [reflexivity|]]].
  - change fixture_extracted
      with (frame_of_records [(Text "United States", "26,854,599");
                              (Text "Country X", "1,200")]).
    rewrite (transform_frame_of_records py_float _
               [float_of_Z 26854599; float_of_Z 1200]).
    + reflexivity.
    + constructor; [now apply Hdigits|].
      constructor; [now apply Hdigits|]. constructor.
  - destruct (to_sql_replace fixture_transformed tb_name db) as [db'|e] eqn:Eload.
    + exists db'. split; [reflexivity|].
      destruct (to_sql_replace_lookup _ _ _ _ Eload) as (Htab & _).
      rewrite (read_sql_loaded text_ge fixture_transformed db' 1 eq_refl).
      * reflexivity.
      * repeat constructor.
      * exact Htab.
    + rewrite to_sql_replace_result in Eload. discriminate.
Qed.

Lemma fixture_end_to_end_witness :
  (extract_document fixture table_attribs = Ok fixture_extracted /\
   transform_frame float_of_digits fixture_extracted
   = Ok (mkDataFrame ["Country"; "GDP_USD_millions"] (rows fixture_transformed),
         fixture_transformed) /\
   nearest_double 2685460 100 f_26854_60 = true /\
   nearest_double 120 100 f_1_20 = true /\
   exists db',
     to_sql_replace fixture_transformed tb_name [] = Ok db' /\
     read_sql (fun _ _ => false) sql_statement db' = Ok fixture_queried) /\
  (let run := driver (fun _ => Ok EmptyString) (fun _ => fixture)
                float_of_digits (fun _ _ => false) example_clock
                (fun _ => None) (boot None None [] 0) in
   snd run = Completed /\
   w_stdout (fst run) =
     [OutText "SELECT * from Countries_by_GDP WHERE GDP_USD_billions >= 100";
      OutFrame fixture_queried]).
Proof.
  split.
  - exact (fixture_end_to_end float_of_digits (fun _ _ => false) []
             float_of_digits_reads).
  - split; vm_compute; reflexivity.
Defined.

(** * Further properties *)

(** ** transform: what a second call does, and how it fails *)

Lemma transform_ok_inv (py_float : string -> res float)
  (dataset r : ref) (h h' : heap) :
  transform py_float dataset h = Ok (r, h') ->
  exists d dm dr,
    deref h dataset = Some d /\
    transform_frame py_float d = Ok (dm, dr) /\
    deref h' dataset = Some dm /\
    deref h' r = Some dr.
Proof.
  unfold transform.
  destruct (deref h dataset) as [d|] eqn:Ed; [|discriminate].
  destruct (transform_frame py_float d) as [[dm dr]|e] eqn:Et; [|discriminate].
  cbn [bind fst snd]. intros [= <- <-].
  pose proof (deref_lt _ _ _ Ed) as Hlt.
  exists d, dm, dr. split; [reflexivity|]. split; [exact Et|]. split.
  - unfold deref, alloc. cbn [snd].
    rewrite nth_error_app1 by (rewrite length_set_nth; lia).
    eapply nth_error_set_nth_same. exact Ed.
  - unfold deref, alloc. cbn [snd fst].
    rewrite nth_error_app2 by lia. now rewrite Nat.sub_diag.
Qed.

Lemma position_renamed (old new : string) (labels : list string) :
  old <> new ->
  position old (map (fun c => if String.eqb c old then new else c) labels) = None.
Proof.
  intros Hne. induction labels as [|c labels IH]; simpl; [reflexivity|].
  rewrite IH. simpl.
  destruct (String.eqb c old) eqn:Ec; [|now rewrite Ec].
  assert (String.eqb new old = false) as ->; [|reflexivity].
  apply String.eqb_neq. congruence.
Qed.

Lemma column_tolist_set_column (d : DataFrame) (label : string) (i : nat)
  (values : list cell) :
  position label (columns d) = Some i ->
  occurrences label (columns d) <= 1 ->
  List.length values = List.length (rows d) ->
  rectangular d ->
  column_tolist (set_column d label values) label = Ok values.
Proof.
  intros Hi Hocc Hlen Hrect.
  unfold column_tolist, set_column. rewrite Hi. simpl columns. rewrite Hi.
  apply Nat.ltb_ge in Hocc as ->. simpl rows. f_equal.
  apply set_rows_column; [assumption|].
  apply position_lt in Hi. unfold rectangular in Hrect.
  eapply Forall_impl; [|exact Hrect]. simpl. intros a Ha. lia.
Qed.

Lemma mapM_app_raise {A B : Type} (f : A -> res B) (l1 l2 : list A)
  (bs : list B) (x : A) (e : exn) :
  mapM f l1 = Ok bs -> f x = Raise e -> mapM f (l1 ++ x :: l2) = Raise e.
Proof.
  revert bs. induction l1 as [|a l1 IH]; intros bs; simpl.
  - intros _ ->. reflexivity.
  - destruct (f a) as [b|e0]; cbn [bind]; [|discriminate].
    destruct (mapM f l1) as [bs'|e0] eqn:Em; cbn [bind]; [|discriminate].
    intros _ Hx. now rewrite (IH bs' eq_refl Hx).
Qed.

(** X1: the frame that [transform] returns cannot be transformed again: its
    GDP column has been renamed, so a second call on it raises [KeyError],
    whatever [float] does. *)
Theorem transform_of_result_raises (py_float py_float' : string -> res float)
  (dataset r : ref) (h h' : heap) :
  transform py_float dataset h = Ok (r, h') ->
  transform py_float' r h' = Raise KeyError.
Proof.
  intros H.
  destruct (transform_ok_inv _ _ _ _ _ H) as (d & dm & dr & _ & Ht & _ & Hr).
  destruct (transform_frame_ok _ _ _ _ Ht) as (i & floats & _ & _ & _ & _ & ->).
  unfold transform. rewrite Hr.
  unfold transform_frame, column_tolist, rename_column. simpl columns.
  rewrite position_renamed by discriminate. reflexivity.
Qed.

Lemma transform_of_result_raises_witness :
  transform float_of_digits 1 fixture_heap_after = Raise KeyError.
Proof.
  apply (transform_of_result_raises float_of_digits float_of_digits 0 1
           [fixture_extracted] fixture_heap_after).
  reflexivity.
Defined.

(** X2: the frame that was passed to [transform] cannot be transformed
    again either, when it has a row: its GDP column now holds floats, and a
    float has no [split], so a second call on the same object raises
    [AttributeError]. *)
Theorem transform_of_argument_raises (py_float py_float' : string -> res float)
  (dataset r : ref) (h h' : heap) (d : DataFrame) :
  transform py_float dataset h = Ok (r, h') ->
  deref h dataset = Some d ->
  rectangular d ->
  rows d <> [] ->
  transform py_float' dataset h' = Raise AttributeError.
Proof.
  intros H Hd Hrect Hrows.
  destruct (transform_ok_inv _ _ _ _ _ H) as (d0 & dm & dr & Hd0 & Ht & Hm & _).
  assert (d0 = d) by congruence. subst d0.
  destruct (transform_frame_ok _ _ _ _ Ht)
    as (i & floats & Hi & Hocc & Hfl & -> & _).
  unfold transform. rewrite Hm. unfold transform_frame.
  rewrite (column_tolist_set_column d "GDP_USD_millions" i); try assumption.
  - cbn [bind]. apply mapM_length in Hfl. rewrite length_map in Hfl.
    destruct (rows d) as [|r0 rws]; [contradiction|].
    destruct floats as [|f floats]; [discriminate|]. reflexivity.
  - rewrite !length_map. apply mapM_length in Hfl.
    now rewrite length_map in Hfl.
Qed.

Lemma transform_of_argument_raises_witness :
  transform float_of_digits 0 fixture_heap_after = Raise AttributeError.
Proof.
  apply (transform_of_argument_raises float_of_digits float_of_digits 0 1
           [fixture_extracted] fixture_heap_after fixture_extracted).
  - reflexivity.
  - reflexivity.
  - repeat constructor.
  - discriminate.
Defined.

(** X3: the conversion stops at the first GDP string that [float] rejects:
    when the strings of the records before it are read and [float] raises
    on it, [transform] raises that exception, whatever the records after
    it hold. *)
Theorem transform_first_bad_record (py_float : string -> res float)
  (dataset : ref) (h : heap)
  (before after : list (node * string)) (bad : node * string)
  (floats : list float) (e : exn) :
  deref h dataset = Some (frame_of_records (before ++ bad :: after)) ->
  Forall2 (fun r f => py_float (remove_commas (snd r)) = Ok f) before floats ->
  py_float (remove_commas (snd bad)) = Raise e ->
  transform py_float dataset h = Raise e.
Proof.
  intros Hd Hbefore Hbad. unfold transform. rewrite Hd.
  unfold transform_frame.
  assert (Hcol : column_tolist (frame_of_records (before ++ bad :: after))
                   "GDP_USD_millions"
                 = Ok (map (fun r => text_cell (snd r)) (before ++ bad :: after))).
  { unfold column_tolist, frame_of_records. simpl. now rewrite map_map. }
  rewrite Hcol. cbn [bind]. rewrite map_app. simpl map.
  rewrite (mapM_app_raise (to_float py_float) _ _ floats _ e).
  - reflexivity.
  - apply mapM_Forall2. clear Hcol Hd.
    induction Hbefore as [|r f recs fls Hr _ IH]; simpl; constructor; assumption.
  - exact Hbad.
Qed.

Lemma transform_first_bad_record_witness :
  transform float_of_digits 0 [frame_of_records records_with_gap]
  = Raise ValueError.
Proof.
  apply (transform_first_bad_record float_of_digits 0
           [frame_of_records records_with_gap]
           [(Text "United States", "26,854,599")] [(Text "Country X", "1,200")]
           (Text "Atlantis", "n/a") [float_of_Z 26854599] ValueError).
  - reflexivity.
  - constructor; [reflexivity|constructor].
  - reflexivity.
Defined.

(** ** extract: how it fails, and the frame it builds *)

Lemma index_first_raise {A : Type} (l : list A) (e : exn) :
  index l 0 = Raise e <-> e = IndexError /\ l = [].
Proof.
  unfold index. destruct l as [|a l]; simpl; split.
  - intros [= <-]. split; reflexivity.
  - intros [-> _]. reflexivity.
  - discriminate.
  - intros [_ H]. discriminate.
Qed.


(** What the part of the loop body before the frame is built raises. *)
Lemma extract_row_raise_cases (row : node) (e : exn) :
  extract_row row = Raise e <->
  e = IndexError /\
  exists c0 rest a,
    find_all "td" row = c0 :: rest /\
    find "a" c0 = Some a /\
    (nth_error (c0 :: rest) 2 = None \/
     exists c2,
       nth_error (c0 :: rest) 2 = Some c2 /\
       tag_contains emdash c2 = false /\
       (contents a = [] \/ contents c2 = [])).
Proof.
  unfold extract_row, index. split.
  - destruct (find_all "td" row) as [|c0 rest]; [discriminate|].
    destruct (find "a" c0) as [a|] eqn:Ea; [|discriminate].
    destruct (nth_error (c0 :: rest) 2) as [c2|] eqn:Ec2; cbn [bind].
    + destruct (tag_contains emdash c2) eqn:Edash; [discriminate|].
      destruct (contents a) as [|x ka] eqn:Eka; cbn [nth_error bind].
      * intros [= <-]. split; [reflexivity|].
        exists c0, rest, a. split; [reflexivity|]. split; [exact Ea|].
        right. exists c2. split; [exact Ec2|]. split; [exact Edash|].
        now left.
      * destruct (contents c2) as [|y kc] eqn:Ekc; cbn [nth_error bind];
          [|discriminate].
        intros [= <-]. split; [reflexivity|].
        exists c0, rest, a. split; [reflexivity|]. split; [exact Ea|].
        right. exists c2. split; [exact Ec2|]. split; [exact Edash|].
        now right.
    + intros [= <-]. split; [reflexivity|].
      exists c0, rest, a. split; [reflexivity|]. split; [exact Ea|].
      now left.
  - intros (-> & c0 & rest & a & Hcol & Ha & Hc). rewrite Hcol, Ha.
    destruct Hc as [Hn | (c2 & Hn & Hdash & Hempty)]; rewrite Hn; cbn [bind];
      [reflexivity|].
    rewrite Hdash.
    destruct Hempty as [He | He]; rewrite He; cbn [nth_error bind];
      [reflexivity|].
    destruct (contents a); reflexivity.
Qed.

(** One pass of the loop raises exactly what the body raises before the
    frame is built. *)
Lemma extract_rows_one_raise (row : node) (d : DataFrame) (e : exn) :
  extract_rows [row] d = Raise e <-> extract_row row = Raise e.
Proof.
  simpl. destruct (extract_row row) as [[dict|]|e0]; cbn [bind].
  - split; discriminate.
  - split; discriminate.
  - split; intros [= <-]; reflexivity.
Qed.

(** X4: on a row whose record values are strings, and a frame with the
    script's two columns, one pass of the loop (lines 33 to 40) raises only
    [IndexError], and exactly when the first data cell of the row has a
    hyperlink below it and the row either has fewer than three data cells,
    or has a third data cell without the em dash among its children while
    the hyperlink or that cell has no child. *)
Theorem extract_row_raises_iff (row : node) (d : DataFrame) (e : exn) :
  columns d = table_attribs ->
  text_values row = true ->
  (extract_rows [row] d = Raise e <->
   e = IndexError /\
   exists c0 rest a,
     find_all "td" row = c0 :: rest /\
     find "a" c0 = Some a /\
     (nth_error (c0 :: rest) 2 = None \/
      exists c2,
        nth_error (c0 :: rest) 2 = Some c2 /\
        tag_contains emdash c2 = false /\
        (contents a = [] \/ contents c2 = []))).
Proof.
  intros _ _. rewrite extract_rows_one_raise. apply extract_row_raise_cases.
Qed.

Lemma extract_row_raises_iff_witness :
  extract_rows [short_row] (empty_frame table_attribs) = Raise IndexError <->
  IndexError = IndexError /\
  exists c0 rest a,
    find_all "td" short_row = c0 :: rest /\
    find "a" c0 = Some a /\
    (nth_error (c0 :: rest) 2 = None \/
     exists c2,
       nth_error (c0 :: rest) 2 = Some c2 /\
       tag_contains emdash c2 = false /\
       (contents a = [] \/ contents c2 = [])).
Proof.
  apply (extract_row_raises_iff short_row (empty_frame table_attribs)
           IndexError); reflexivity.
Defined.







Lemma emitted_rows (outs : list (option (list (string * cell))))
  (rws : list node) :
  mapM extract_row rws = Ok outs ->
  Forall (fun r => exists country gdp,
                     r = [CObj country; CObj gdp] /\
                     node_eq_str gdp emdash = false) (emitted outs) /\
  List.length (emitted outs) <= List.length rws.
Proof.
  revert outs. induction rws as [|row rws IH]; intros outs; simpl.
  - intros [= <-]. split; [constructor|]. simpl. lia.
  - destruct (extract_row row) as [o|e] eqn:Erow; cbn [bind]; [|discriminate].
    destruct (mapM extract_row rws) as [outs'|e]; cbn [bind]; [|discriminate].
    intros [= <-]. destruct (IH outs' eq_refl) as [Hall Hlen].
    destruct o as [dict|]; simpl.
    + destruct (extract_row_emits _ _ Erow)
        as (c0 & rest & a & c2 & country & gdp
            & _ & _ & _ & Hdash & _ & Hgdp & ->).
      split; [|lia]. constructor; [|exact Hall].
      exists country, gdp. split; [reflexivity|].
      unfold tag_contains in Hdash.
      destruct (contents c2) as [|y kc]; [discriminate|].
      injection Hgdp as ->. simpl in Hdash.
      now apply orb_false_elim in Hdash.
    + split; [exact Hall|lia].
Qed.

(** The frame of a successful extraction. *)
Lemma extract_document_frame (data : node) (d : DataFrame) :
  extract_document data table_attribs = Ok d ->
  columns d = table_attribs /\
  Forall (fun r => exists country gdp,
                     r = [CObj country; CObj gdp] /\
                     node_eq_str gdp emdash = false) (rows d) /\
  exists t,
    nth_error (find_all "tbody" data) 2 = Some t /\
    List.length (rows d) <= List.length (find_all "tr" t).
Proof.
  unfold extract_document. intros H.
  destruct (index (find_all "tbody" data) 2) as [t|] eqn:Et; [|discriminate].
  apply index_ok in Et. cbn [bind] in H.
  rewrite extract_rows_spec in H by reflexivity.
  destruct (mapM extract_row (find_all "tr" t)) as [outs|] eqn:Eouts;
    [|discriminate].
  cbn [bind] in H. injection H as <-. simpl.
  destruct (emitted_rows _ _ Eouts) as [Hall Hlen].
  split; [reflexivity|]. split; [exact Hall|].
  exists t. split; [exact Et|exact Hlen].
Qed.

(** The records of rows whose record values are strings are pairs of
    strings, the second never the em dash. *)
Lemma emitted_rows_text (outs : list (option (list (string * cell))))
  (rws : list node) :
  mapM extract_row rws = Ok outs ->
  forallb text_values rws = true ->
  Forall (fun r => exists country gdp,
                     r = [text_cell country; text_cell gdp] /\
                     gdp <> emdash) (emitted outs).
Proof.
  revert outs. induction rws as [|row rws IH]; intros outs; simpl.
  - intros [= <-] _. constructor.
  - destruct (extract_row row) as [o|e] eqn:Erow; cbn [bind]; [|discriminate].
    destruct (mapM extract_row rws) as [outs'|e]; cbn [bind]; [|discriminate].
    intros [= <-] Htext. apply andb_prop in Htext as [Hrow Hrws].
    specialize (IH outs' eq_refl Hrws).
    destruct o as [dict|]; simpl; [|exact IH].
    destruct (extract_row_emits_text _ _ Hrow Erow)
      as (country & gdp & -> & Hgdp & _).
    constructor; [|exact IH].
    exists country, gdp. split; [reflexivity|exact Hgdp].
Qed.

(** X7: for a page in whose third table body every row has strings as
    record values, a frame that [extract] returns for the script's labels
    has exactly the columns [Country] and [GDP_USD_millions]; each of its
    rows has two cells, both strings of the document (no NaN), the second
    never the em dash string; and it has at most as many rows as the
    selected table body has rows. *)
Theorem extract_frame_shape (http_get : string -> res string)
  (html_parser : string -> node) (url : string) (d : DataFrame) :
  (forall page t,
     http_get url = Ok page ->
     nth_error (find_all "tbody" (html_parser page)) 2 = Some t ->
     forallb text_values (find_all "tr" t) = true) ->
  extract http_get html_parser url table_attribs = Ok d ->
  columns d = ["Country"; "GDP_USD_millions"] /\
  rectangular d /\
  Forall (fun r => exists country gdp,
                     r = [text_cell country; text_cell gdp] /\
                     gdp <> emdash) (rows d) /\
  exists page t,
    http_get url = Ok page /\
    nth_error (find_all "tbody" (html_parser page)) 2 = Some t /\
    List.length (rows d) <= List.length (find_all "tr" t).
Proof.
  intros Htext. unfold extract, extract_document.
  destruct (http_get url) as [page|e] eqn:Eget; cbn [bind]; [|discriminate].
  destruct (index (find_all "tbody" (html_parser page)) 2) as [t|] eqn:Et;
    [|discriminate].
  apply index_ok in Et. cbn [bind].
  rewrite extract_rows_spec by reflexivity.
  destruct (mapM extract_row (find_all "tr" t)) as [outs|] eqn:Eouts;
    [|discriminate].
  cbn [bind]. intros [= <-]. simpl.
  pose proof (emitted_rows_text _ _ Eouts (Htext page t eq_refl Et)) as Hall.
  destruct (emitted_rows _ _ Eouts) as [_ Hlen].
  split; [reflexivity|]. split; [|split; [exact Hall|]].
  - unfold rectangular. simpl.
    eapply Forall_impl; [|exact Hall]. simpl.
    intros r (country & gdp & -> & _). reflexivity.
  - exists page, t. repeat split; assumption.
Qed.

Lemma extract_frame_shape_witness :
  columns fixture_extracted = ["Country"; "GDP_USD_millions"] /\
  rectangular fixture_extracted /\
  Forall (fun r => exists country gdp,
                     r = [text_cell country; text_cell gdp] /\
                     gdp <> emdash) (rows fixture_extracted) /\
  exists page t,
    online URL = Ok page /\
    nth_error (find_all "tbody" (parse_fixture page)) 2 = Some t /\
    List.length (rows fixture_extracted) <= List.length (find_all "tr" t).
Proof.
  apply (extract_frame_shape online parse_fixture URL fixture_extracted).
  - intros page t _ [= <-]. reflexivity.
  - reflexivity.
Defined.

Lemma mapM_raise_In {A B : Type} (f : A -> res B) (l : list A) (e : exn) :
  mapM f l = Raise e -> exists x, In x l /\ f x = Raise e.
Proof.
  induction l as [|a l IH]; simpl; [discriminate|].
  destruct (f a) as [b|e0] eqn:Ea; cbn [bind].
  - destruct (mapM f l) as [bs|e0]; cbn [bind]; [discriminate|].
    intros [= <-]. destruct (IH eq_refl) as (x & Hx & Hf).
    exists x. split; [now right|exact Hf].
  - intros [= <-]. exists a. split; [now left|exact Ea].
Qed.

(** X8: on a frame that was extracted, [transform] never fails on the
    frame itself (no [KeyError], no missing cell): when it raises, the
    exception comes from reading the GDP value of one of the records. *)
Theorem transform_after_extract_raises (py_float : string -> res float)
  (data : node) (d : DataFrame) (e : exn) :
  extract_document data table_attribs = Ok d ->
  transform_frame py_float d = Raise e ->
  exists country gdp,
    In [CObj country; CObj gdp] (rows d) /\
    to_float py_float (CObj gdp) = Raise e.
Proof.
  intros Hx Ht.
  destruct (extract_document_frame _ _ Hx) as (Hcols & Hall & _).
  unfold transform_frame, column_tolist in Ht. rewrite Hcols in Ht.
  simpl in Ht.
  destruct (mapM (to_float py_float) (map (fun r => nth 1 r CNaN) (rows d)))
    as [floats|e0] eqn:Em; cbn [bind] in Ht; [discriminate|].
  injection Ht as ->.
  destruct (mapM_raise_In _ _ _ Em) as (x & Hin & Hf).
  apply in_map_iff in Hin. destruct Hin as (r & <- & Hr).
  rewrite Forall_forall in Hall.
  destruct (Hall r Hr) as (country & gdp & -> & _).
  exists country, gdp. split; [exact Hr|exact Hf].
Qed.

Lemma transform_after_extract_raises_witness :
  exists country gdp,
    In [CObj country; CObj gdp]
       [[text_cell "Atlantis"; text_cell (emdash ++ newline)%string]] /\
    to_float float_of_digits (CObj gdp) = Raise ValueError.
Proof.
  apply (transform_after_extract_raises float_of_digits
           (page_of_rows [dash_row])
           (frame_of_records [(Text "Atlantis", (emdash ++ newline)%string)])
           ValueError).
  - reflexivity.
  - reflexivity.
Defined.

(** ** The script: what a run leaves behind *)

Lemma drop_table_app (name : string) (db1 db2 : database) :
  drop_table name (db1 ++ db2) = drop_table name db1 ++ drop_table name db2.
Proof.
  unfold drop_table. apply filter_app.
Qed.

Lemma drop_table_twice (name : string) (db : database) :
  drop_table name (drop_table name db) = drop_table name db.
Proof.
  unfold drop_table. induction db as [|nt db IH]; simpl; [reflexivity|].
  destruct (negb (String.eqb (fst nt) name)) eqn:E; simpl; [|exact IH].
  now rewrite E, IH.
Qed.

Lemma drop_table_replaced (name : string) (t : table) (db : database) :
  drop_table name (drop_table name db ++ [(name, t)]) = drop_table name db.
Proof.
  rewrite drop_table_app, drop_table_twice. unfold drop_table at 2. simpl.
  rewrite String.eqb_refl. simpl. apply app_nil_r.
Qed.

Lemma map_floats (f : list cell -> cell) (rws : list (list cell))
  (floats : list float) :
  map f rws = map CFloat floats ->
  Forall (fun r => is_float (f r) = true) rws.
Proof.
  revert floats. induction rws as [|r rws IH]; intros [|x floats] H;
    simpl in H; try discriminate; constructor.
  - injection H as Hr _. now rewrite Hr.
  - injection H as _ Hrest. now apply (IH floats).
Qed.

(** What [transform] makes of an extracted frame. *)
Lemma transform_extracted (py_float : string -> res float) (data : node)
  (d dm dr : DataFrame) :
  extract_document data table_attribs = Ok d ->
  transform_frame py_float d = Ok (dm, dr) ->
  columns dr = ["Country"; "GDP_USD_billions"] /\
  rows dr = rows dm /\
  Forall (fun r => is_float (nth 1 r CNaN) = true) (rows dr).
Proof.
  intros Hx Ht.
  destruct (extract_document_frame _ _ Hx) as (Hcols & Hall & _).
  destruct (transform_frame_ok _ _ _ _ Ht) as (i & floats & Hi & _ & Hm & -> & ->).
  rewrite Hcols in Hi. simpl in Hi. injection Hi as <-.
  unfold rename_column, set_column. rewrite Hcols. simpl.
  repeat split.
  apply (map_floats (fun r => nth 1 r CNaN) _ (map to_billions floats)).
  apply set_rows_column.
  - rewrite !length_map. apply mapM_length in Hm.
    now rewrite length_map in Hm.
  - eapply Forall_impl; [|exact Hall]. simpl.
    intros r (country & gdp & -> & _). simpl. lia.
Qed.

Section RunFacts.
Variable http_get : string -> res string.
Variable html_parser : string -> node.
Variable py_float : string -> res float.
Variable text_ge : cell -> nat -> bool.
Variable datetime_now : nat -> datetime.
Variable io_fault : stmt -> option exn.

Let exec' := exec http_get html_parser py_float text_ge datetime_now io_fault.
Let run' := run http_get html_parser py_float text_ge datetime_now io_fault.

Lemma run_cons_completed (s : stmt) (p : list stmt) (w w' : world) :
  run' (s :: p) w = (w', Completed) ->
  exists w1, exec' s w = Next w1 /\ run' p w1 = (w', Completed).
Proof.
  unfold run', exec'. simpl.
  destruct (exec http_get html_parser py_float text_ge datetime_now io_fault s w)
    as [w1|w1 e]; [|discriminate].
  intros H. now exists w1.
Qed.

(** The world a statement that returns leaves. *)
Lemma exec_next_inv (s : stmt) (w w1 : world) :
  exec' s w = Next w1 ->
  match s with
  | LogProgress message =>
      w1 = mkWorld (w_heap w) (w_df w) (w_sql_conn w)
             (append_file (w_log w)
                (log_entry (datetime_now (w_clock w)) message))
             (w_csv w) (w_db w) (w_stdout w) (S (w_clock w))
  | Extract =>
      exists d,
        extract http_get html_parser URL table_attribs = Ok d /\
        w1 = mkWorld (w_heap w ++ [d]) (Some (List.length (w_heap w)))
               (w_sql_conn w) (w_log w) (w_csv w) (w_db w) (w_stdout w)
               (w_clock w)
  | Transform =>
      exists r d dm dr,
        w_df w = Some r /\ deref (w_heap w) r = Some d /\
        transform_frame py_float d = Ok (dm, dr) /\
        w1 = mkWorld (set_nth r dm (w_heap w) ++ [dr])
               (Some (List.length (w_heap w)))
               (w_sql_conn w) (w_log w) (w_csv w) (w_db w) (w_stdout w)
               (w_clock w)
  | LoadToCsv =>
      exists r d,
        w_df w = Some r /\ deref (w_heap w) r = Some d /\
        w1 = mkWorld (w_heap w) (w_df w) (w_sql_conn w) (w_log w) (Some d)
               (w_db w) (w_stdout w) (w_clock w)
  | Connect => w1 = set_conn Open w
  | LoadToDb =>
      exists r d,
        w_df w = Some r /\ deref (w_heap w) r = Some d /\
        forallb (forallb storable) (rows d) = true /\
        w1 = mkWorld (w_heap w) (w_df w) (w_sql_conn w) (w_log w) (w_csv w)
               (drop_table tb_name (w_db w)
                ++ [(tb_name, mkTable (schema d) (rows d))])
               (w_stdout w) (w_clock w)
  | RunQuery =>
      exists query_output,
        read_sql text_ge sql_statement (w_db w) = Ok query_output /\
        w1 = print (OutFrame query_output)
               (print (OutText (statement_text sql_statement)) w)
  | Close => w1 = set_conn Closed w
  end.
Proof.
  unfold exec', exec.
  destruct s; unfold attempt, log_progress, load_to_csv, load_to_db,
    run_query, guard.
  - destruct (io_fault (LogProgress message)); [discriminate|].
    now intros [= <-].
  - destruct (extract http_get html_parser URL table_attribs) as [d|];
      cbn [bind]; [|discriminate].
    unfold alloc. intros [= <-]. now exists d.
  - destruct (w_df w) as [r|]; [|discriminate].
    unfold transform.
    destruct (deref (w_heap w) r) as [d|] eqn:Ed; [|discriminate].
    destruct (transform_frame py_float d) as [[dm dr]|] eqn:Et; cbn [bind];
      [|discriminate].
    unfold alloc. cbn [fst snd]. rewrite length_set_nth. intros [= <-].
    exists r, d, dm, dr. repeat split; assumption.
  - destruct (w_df w) as [r|]; [|discriminate].
    destruct (io_fault LoadToCsv); [discriminate|].
    destruct (deref (w_heap w) r) as [d|] eqn:Ed; [|discriminate].
    intros [= <-]. exists r, d. repeat split. exact Ed.
  - destruct (io_fault Connect); [discriminate|]. now intros [= <-].
  - destruct (w_df w) as [r|]; [|discriminate].
    destruct (io_fault LoadToDb); [discriminate|].
    destruct (deref (w_heap w) r) as [d|] eqn:Ed; [|discriminate].
    destruct (w_sql_conn w); try discriminate.
    rewrite to_sql_replace_result.
    destruct (forallb (forallb storable) (rows d)) eqn:Est; cbn [bind];
      [|discriminate].
    intros [= <-]. exists r, d. repeat split; assumption.
  - destruct (w_sql_conn w); [discriminate| |];
      destruct (io_fault RunQuery); try discriminate.
    destruct (read_sql text_ge sql_statement (w_db w)) as [out|];
      [|discriminate].
    intros [= <-]. now exists out.
  - destruct (io_fault Close); [discriminate|].
    destruct (w_sql_conn w); [discriminate| |]; now intros [= <-].
Qed.
End RunFacts.

Ltac run_step H w He :=
  apply run_cons_completed in H; destruct H as (w & He & H);
  apply exec_next_inv in He; cbv beta iota in He.

Ltac world_fields :=
  cbn [w_heap w_df w_sql_conn w_log w_csv w_db w_stdout w_clock
       set_conn print app List.length deref nth_error set_nth] in *.

(** What a run that completes has computed and written. *)
Lemma driver_completed_inv
  (http_get : string -> res string) (html_parser : string -> node)
  (py_float : string -> res float) (text_ge : cell -> nat -> bool)
  (datetime_now : nat -> datetime) (io_fault : stmt -> option exn)
  (log : option string) (csv_file : option DataFrame) (db : database)
  (clock : nat) (w' : world) :
  driver http_get html_parser py_float text_ge datetime_now io_fault
    (boot log csv_file db clock) = (w', Completed) ->
  exists d dm dr out,
    extract http_get html_parser URL table_attribs = Ok d /\
    transform_frame py_float d = Ok (dm, dr) /\
    forallb (forallb storable) (rows dr) = true /\
    read_sql text_ge sql_statement
      (drop_table tb_name db ++ [(tb_name, mkTable (schema dr) (rows dr))])
    = Ok out /\
    w_heap w' = [dm; dr] /\
    w_df w' = Some 1 /\
    w_sql_conn w' = Closed /\
    w_csv w' = Some dr /\
    w_db w' =
      drop_table tb_name db ++ [(tb_name, mkTable (schema dr) (rows dr))] /\
    w_stdout w' = [OutText (statement_text sql_statement); OutFrame out].
Proof.
  unfold driver, program, boot. intros H.
  run_step H w1 E1. subst w1. world_fields.
  run_step H w2 E2. destruct E2 as (d & Hx & ->). world_fields.
  run_step H w3 E3. subst w3. world_fields.
  run_step H w4 E4. destruct E4 as (r & d0 & dm & dr & Hr & Hd & Ht & ->).
  world_fields. injection Hr as <-. world_fields. injection Hd as <-.
  run_step H w5 E5. subst w5. world_fields.
  run_step H w6 E6. destruct E6 as (r & d1 & Hr & Hd & ->).
  world_fields. injection Hr as <-. world_fields. injection Hd as <-.
  run_step H w7 E7. subst w7. world_fields.
  run_step H w8 E8. subst w8. world_fields.
  run_step H w9 E9. subst w9. world_fields.
  run_step H w10 E10. destruct E10 as (r & d2 & Hr & Hd & Hst & ->).
  world_fields. injection Hr as <-. world_fields. injection Hd as <-.
  run_step H w11 E11. subst w11. world_fields.
  run_step H w12 E12. destruct E12 as (out & Hq & ->). world_fields.
  run_step H w13 E13. subst w13. world_fields.
  run_step H w14 E14. subst w14. world_fields.
  simpl in H. injection H as <-.
  exists d, dm, dr, out. world_fields. repeat split; assumption.
Qed.

Lemma lookup_replaced (name : string) (t : table) (db : database) :
  lookup_table name (drop_table name db ++ [(name, t)]) = Some t.
Proof.
  unfold lookup_table. rewrite lookup_app, lookup_drop_same. simpl.
  now rewrite String.eqb_refl.
Qed.

(** The files and the console after a run that completes. *)
Lemma driver_completed_outputs
  (http_get : string -> res string) (html_parser : string -> node)
  (py_float : string -> res float) (text_ge : cell -> nat -> bool)
  (datetime_now : nat -> datetime) (io_fault : stmt -> option exn)
  (log : option string) (csv_file : option DataFrame) (db : database)
  (clock : nat) (w' : world) :
  driver http_get html_parser py_float text_ge datetime_now io_fault
    (boot log csv_file db clock) = (w', Completed) ->
  exists d dm dr,
    extract http_get html_parser URL table_attribs = Ok d /\
    transform_frame py_float d = Ok (dm, dr) /\
    w_csv w' = Some dr /\
    w_db w' =
      drop_table tb_name db ++ [(tb_name, mkTable (schema dr) (rows dr))] /\
    w_stdout w' =
      [OutText "SELECT * from Countries_by_GDP WHERE GDP_USD_billions >= 100";
       OutFrame (mkDataFrame ["Country"; "GDP_USD_billions"]
                   (filter (fun r => at_least_100 (nth 1 r CNaN)) (rows dr)))].
Proof.
  intros H.
  destruct (driver_completed_inv _ _ _ _ _ _ _ _ _ _ _ H)
    as (d & dm & dr & out & Hx & Ht & _ & Hq & _ & _ & _ & Hcsv & Hdb & Hout).
  exists d, dm, dr. repeat split; try assumption.
  rewrite Hout. f_equal. f_equal. f_equal.
  assert (Hdoc : exists page, extract_document (html_parser page) table_attribs = Ok d).
  { unfold extract in Hx. destruct (http_get URL) as [page|]; [|discriminate].
    now exists page. }
  destruct Hdoc as (page & Hdoc).
  destruct (transform_extracted _ _ _ _ _ Hdoc Ht) as (Hcols & _ & Hfloat).
  rewrite (read_sql_loaded text_ge dr _ 1) in Hq.
  - injection Hq as <-. now rewrite Hcols.
  - now rewrite Hcols.
  - exact Hfloat.
  - apply lookup_replaced.
Qed.

(** X9: after a run that completes, the CSV file, the table and the
    console show the same data: the CSV file holds the frame that
    [transform] returned for the extracted frame, the table
    [Countries_by_GDP] holds exactly its rows, and the console shows the
    statement followed by those of its rows whose value is at least 100,
    in the same order. *)
Theorem completed_run_outputs
  (http_get : string -> res string) (html_parser : string -> node)
  (py_float : string -> res float) (text_ge : cell -> nat -> bool)
  (datetime_now : nat -> datetime) (io_fault : stmt -> option exn)
  (log : option string) (csv_file : option DataFrame) (db : database)
  (clock : nat) (w' : world) :
  driver http_get html_parser py_float text_ge datetime_now io_fault
    (boot log csv_file db clock) = (w', Completed) ->
  exists d dm dr,
    extract http_get html_parser URL table_attribs = Ok d /\
    transform_frame py_float d = Ok (dm, dr) /\
    w_csv w' = Some dr /\
    lookup_table tb_name (w_db w') = Some (mkTable (schema dr) (rows dr)) /\
    tables_named tb_name (w_db w') = 1 /\
    w_stdout w' =
      [OutText "SELECT * from Countries_by_GDP WHERE GDP_USD_billions >= 100";
       OutFrame (mkDataFrame ["Country"; "GDP_USD_billions"]
                   (filter (fun r => at_least_100 (nth 1 r CNaN)) (rows dr)))].
Proof.
  intros H.
  destruct (driver_completed_outputs _ _ _ _ _ _ _ _ _ _ _ H)
    as (d & dm & dr & Hx & Ht & Hcsv & Hdb & Hout).
  exists d, dm, dr. rewrite Hdb.
  repeat split; try assumption.
  - apply lookup_replaced.
  - apply tables_named_replaced.
Qed.

Lemma completed_run_outputs_witness :
  exists w' d dm dr,
    driver online parse_fixture float_of_digits never_ge example_clock no_fault
      (boot None None [] 0) = (w', Completed) /\
    extract online parse_fixture URL table_attribs = Ok d /\
    transform_frame float_of_digits d = Ok (dm, dr) /\
    w_csv w' = Some dr /\
    lookup_table tb_name (w_db w') = Some (mkTable (schema dr) (rows dr)) /\
    tables_named tb_name (w_db w') = 1 /\
    w_stdout w' =
      [OutText "SELECT * from Countries_by_GDP WHERE GDP_USD_billions >= 100";
       OutFrame (mkDataFrame ["Country"; "GDP_USD_billions"]
                   (filter (fun r => at_least_100 (nth 1 r CNaN)) (rows dr)))].
Proof.
  assert (H : exists w',
             driver online parse_fixture float_of_digits never_ge example_clock
               no_fault (boot None None [] 0) = (w', Completed)).
  { eexists. vm_compute. reflexivity. }
  destruct H as (w' & H).
  destruct (completed_run_outputs _ _ _ _ _ _ _ _ _ _ _ H)
    as (d & dm & dr & Hrest).
  exists w', d, dm, dr. split; [exact H|exact Hrest].
Defined.

(** X10: the script is idempotent on its outputs. When two consecutive
    runs complete over the same page, parser and [float], the second run
    leaves the CSV file, the database and the console output exactly as
    the first run left them, whatever the clock and the database held
    before the first run. *)
Theorem pipeline_idempotent
  (http_get : string -> res string) (html_parser : string -> node)
  (py_float : string -> res float) (text1 text2 : cell -> nat -> bool)
  (now1 now2 : nat -> datetime) (fault1 fault2 : stmt -> option exn)
  (log : option string) (csv_file : option DataFrame) (db : database)
  (clock1 clock2 : nat) (w1 w2 : world) :
  driver http_get html_parser py_float text1 now1 fault1
    (boot log csv_file db clock1) = (w1, Completed) ->
  driver http_get html_parser py_float text2 now2 fault2
    (boot (w_log w1) (w_csv w1) (w_db w1) clock2) = (w2, Completed) ->
  w_csv w2 = w_csv w1 /\ w_db w2 = w_db w1 /\ w_stdout w2 = w_stdout w1.
Proof.
  intros H1 H2.
  destruct (driver_completed_outputs _ _ _ _ _ _ _ _ _ _ _ H1)
    as (d & dm & dr & Hx & Ht & Hcsv & Hdb & Hout).
  destruct (driver_completed_outputs _ _ _ _ _ _ _ _ _ _ _ H2)
    as (d' & dm' & dr' & Hx' & Ht' & Hcsv' & Hdb' & Hout').
  assert (d' = d) by congruence. subst d'.
  assert (dr' = dr) by congruence. subst dr'.
  repeat split.
  - congruence.
  - rewrite Hdb', Hdb. now rewrite drop_table_replaced.
  - congruence.
Qed.

Lemma pipeline_idempotent_witness :
  exists w1 w2,
    driver online parse_fixture float_of_digits never_ge example_clock no_fault
      (boot None None [] 0) = (w1, Completed) /\
    driver online parse_fixture float_of_digits never_ge example_clock no_fault
      (boot (w_log w1) (w_csv w1) (w_db w1) 7) = (w2, Completed) /\
    w_csv w2 = w_csv w1 /\ w_db w2 = w_db w1 /\ w_stdout w2 = w_stdout w1.
Proof.
  assert (H1 : exists w1,
             driver online parse_fixture float_of_digits never_ge example_clock
               no_fault (boot None None [] 0) = (w1, Completed)).
  { eexists. vm_compute. reflexivity. }
  destruct H1 as (w1 & H1).
  assert (H2 : exists w2,
             driver online parse_fixture float_of_digits never_ge example_clock
               no_fault (boot (w_log w1) (w_csv w1) (w_db w1) 7)
             = (w2, Completed)).
  { destruct (driver_completed_inv _ _ _ _ _ _ _ _ _ _ _ H1)
      as (d & dm & dr & out & Hx & Ht & _ & _ & _ & _ & _ & Hcsv & Hdb & _).
    vm_compute in Hx. injection Hx as <-.
    vm_compute in Ht. injection Ht as <- <-.
    rewrite Hcsv, Hdb. eexists. vm_compute. reflexivity. }
  destruct H2 as (w2 & H2).
  exists w1, w2. split; [exact H1|]. split; [exact H2|].
  exact (pipeline_idempotent _ _ _ _ _ _ _ _ _ _ _ _ _ _ _ _ H1 H2).
Defined.

(** ** The script: what a failed run leaves behind *)

Section RunKeeps.
Variable http_get : string -> res string.
Variable html_parser : string -> node.
Variable py_float : string -> res float.
Variable text_ge : cell -> nat -> bool.
Variable datetime_now : nat -> datetime.
Variable io_fault : stmt -> option exn.

Let exec' := exec http_get html_parser py_float text_ge datetime_now io_fault.
Let run' := run http_get html_parser py_float text_ge datetime_now io_fault.

(** What a statement leaves alone, whether it returns or raises. *)
Lemma exec_keeps (s : stmt) (w : world) :
  let w1 := match exec' s w with
            | Next w1 => w1
            | Abort w1 _ => w1
            end in
  (s <> LoadToCsv -> w_csv w1 = w_csv w) /\
  (s <> LoadToDb -> w_db w1 = w_db w) /\
  (s <> RunQuery -> w_stdout w1 = w_stdout w) /\
  (s <> Connect -> s <> Close -> w_sql_conn w1 = w_sql_conn w).
Proof.
  unfold exec', exec.
  destruct s; unfold attempt, log_progress, load_to_csv, load_to_db,
    run_query, guard.
  - destruct (io_fault (LogProgress message)); simpl; repeat split.
  - destruct (extract http_get html_parser URL table_attribs) as [d|];
      simpl; repeat split.
  - destruct (w_df w) as [r|]; [|simpl; repeat split].
    destruct (transform py_float r (w_heap w)); simpl; repeat split.
  - destruct (w_df w) as [r|]; [|simpl; repeat split; congruence].
    destruct (io_fault LoadToCsv); [simpl; repeat split; congruence|].
    destruct (deref (w_heap w) r); simpl; repeat split; congruence.
  - destruct (io_fault Connect); simpl; repeat split; congruence.
  - destruct (w_df w) as [r|]; [|simpl; repeat split; congruence].
    destruct (io_fault LoadToDb); [simpl; repeat split; congruence|].
    destruct (deref (w_heap w) r) as [d|]; [|simpl; repeat split; congruence].
    destruct (w_sql_conn w) eqn:Ec; try (simpl; repeat split; congruence).
    destruct (to_sql_replace d tb_name (w_db w)); simpl; repeat split;
      congruence.
  - destruct (w_sql_conn w) eqn:Ec; [simpl; repeat split; congruence| |];
      destruct (io_fault RunQuery); try (simpl; repeat split; congruence);
      destruct (read_sql text_ge sql_statement (w_db w));
      simpl; repeat split; congruence.
  - destruct (io_fault Close); [simpl; repeat split; congruence|].
    destruct (w_sql_conn w); simpl; repeat split; congruence.
Qed.

Lemma run_keeps (p : list stmt) (w w' : world) (out : outcome) :
  run' p w = (w', out) ->
  (~ In LoadToCsv p -> w_csv w' = w_csv w) /\
  (~ In LoadToDb p -> w_db w' = w_db w) /\
  (~ In RunQuery p -> w_stdout w' = w_stdout w) /\
  (~ In Connect p -> ~ In Close p -> w_sql_conn w' = w_sql_conn w).
Proof.
  unfold run'. revert w. induction p as [|s p IH]; intros w; simpl.
  - intros [= <- _]. repeat split.
  - pose proof (exec_keeps s w) as Hs. unfold exec' in Hs.
    destruct (exec http_get html_parser py_float text_ge datetime_now io_fault s w)
      as [w1|w1 e]; cbv zeta in Hs; destruct Hs as (Hc & Hd & Ho & Hn).
    + intros H. destruct (IH _ H) as (Hc' & Hd' & Ho' & Hn').
      repeat split; intros.
      * rewrite Hc', Hc; tauto || (intros ->; tauto).
      * rewrite Hd', Hd; tauto || (intros ->; tauto).
      * rewrite Ho', Ho; tauto || (intros ->; tauto).
      * rewrite Hn', Hn; tauto || (intros ->; tauto).
    + intros [= <- _]. repeat split; intros.
      * apply Hc. intros ->. tauto.
      * apply Hd. intros ->. tauto.
      * apply Ho. intros ->. tauto.
      * apply Hn; intros ->; tauto.
Qed.

Lemma run_app (p1 p2 : list stmt) (w : world) :
  run' (p1 ++ p2) w =
  match run' p1 w with
  | (w1, Completed) => run' p2 w1
  | (w1, Uncaught s e) => (w1, Uncaught s e)
  end.
Proof.
  unfold run'. revert w. induction p1 as [|s p1 IH]; intros w; simpl.
  - reflexivity.
  - destruct (exec http_get html_parser py_float text_ge datetime_now io_fault s w)
      as [w1|w1 e]; [apply IH|reflexivity].
Qed.

Lemma run_uncaught_In (p : list stmt) (w w' : world) (s : stmt) (e : exn) :
  run' p w = (w', Uncaught s e) -> In s p.
Proof.
  unfold run'. revert w. induction p as [|s0 p IH]; intros w; simpl.
  - discriminate.
  - destruct (exec http_get html_parser py_float text_ge datetime_now io_fault s0 w)
      as [w1|w1 e0].
    + intros H. right. eapply IH. exact H.
    + intros [= _ <- _]. now left.
Qed.
End RunKeeps.

Lemma program_before_csv (s : stmt) :
  In s (firstn 5 program) -> ~ In s (skipn 5 program).
Proof.
  simpl. intros H1 H2.
  repeat (destruct H1 as [<-|H1];
          [repeat (destruct H2 as [H2|H2]; [discriminate H2|]); exact H2|]).
  exact H1.
Qed.

(** X11: a run that fails before the sinks leaves the earlier outputs
    alone. When the exception is raised by one of the statements up to the
    log entry that follows [transform] (a failed fetch, a missing table
    body, a malformed row, a GDP string that [float] rejects, a log file
    that cannot be written), the CSV file and the database are as the run
    found them, nothing was printed and no connection was opened. *)
Theorem failed_run_keeps_files
  (http_get : string -> res string) (html_parser : string -> node)
  (py_float : string -> res float) (text_ge : cell -> nat -> bool)
  (datetime_now : nat -> datetime) (io_fault : stmt -> option exn)
  (log : option string) (csv_file : option DataFrame) (db : database)
  (clock : nat) (w' : world) (s : stmt) (e : exn) :
  driver http_get html_parser py_float text_ge datetime_now io_fault
    (boot log csv_file db clock) = (w', Uncaught s e) ->
  In s [ LogProgress "Preliminaries complete. Initiating ETL process";
         Extract;
         LogProgress "Data extraction complete. Initiating Transformation process";
         Transform;
         LogProgress "Data transformation complete. Initiating loading process" ] ->
  w_csv w' = csv_file /\ w_db w' = db /\ w_stdout w' = [] /\
  w_sql_conn w' = NoConnection.
Proof.
  intros H Hs. unfold driver in H.
  change program with (firstn 5 program ++ skipn 5 program) in H.
  rewrite run_app in H.
  destruct (run http_get html_parser py_float text_ge datetime_now io_fault
              (firstn 5 program) (boot log csv_file db clock))
    as [w1 [|s1 e1]] eqn:E1.
  - apply run_uncaught_In in H.
    exfalso. exact (program_before_csv s Hs H).
  - injection H as <- _ _.
    destruct (run_keeps _ _ _ _ _ _ _ _ _ _ E1) as (Hc & Hd & Ho & Hn).
    assert (Hno : forall x, is_sink x = true -> ~ In x (firstn 5 program)).
    { intros x Hx Hin. simpl in Hin.
      repeat (destruct Hin as [<-|Hin]; [discriminate Hx|]). exact Hin. }
    repeat split.
    + apply Hc. now apply Hno.
    + apply Hd. now apply Hno.
    + apply Ho. now apply Hno.
    + apply Hn; now apply Hno.
Qed.

Lemma failed_run_keeps_files_witness :
  exists w',
    driver offline parse_fixture float_of_digits never_ge example_clock no_fault
      (boot None (Some fixture_queried)
         [(tb_name, mkTable (schema fixture_queried) (rows fixture_queried))] 0)
    = (w', Uncaught Extract ConnectionError) /\
    w_csv w' = Some fixture_queried /\
    w_db w' = [(tb_name, mkTable (schema fixture_queried) (rows fixture_queried))] /\
    w_stdout w' = [] /\
    w_sql_conn w' = NoConnection.
Proof.
  assert (H : exists w',
             driver offline parse_fixture float_of_digits never_ge example_clock
               no_fault
               (boot None (Some fixture_queried)
                  [(tb_name,
                    mkTable (schema fixture_queried) (rows fixture_queried))] 0)
             = (w', Uncaught Extract ConnectionError)).
  { eexists. vm_compute. reflexivity. }
  destruct H as (w' & H). exists w'. split; [exact H|].
  apply (failed_run_keeps_files _ _ _ _ _ _ _ _ _ _ _ _ _ H).
  right. left. reflexivity.
Defined.

Lemma program_between_sinks (s : stmt) :
  In s (firstn 3 (skipn 6 program)) ->
  ~ In s (firstn 6 program) /\ ~ In s (skipn 9 program).
Proof.
  simpl. intros H. split; intros H2;
    repeat (destruct H as [<-|H];
            [repeat (destruct H2 as [H2|H2]; [discriminate H2|]); exact H2|]);
    exact H.
Qed.

(** X12: the two sinks are not written together. When the run fails after
    the CSV file was written and before the table is loaded (the log file
    cannot be written, or the connection cannot be opened), the CSV file
    holds the new transformed frame while the database is as the run found
    it. *)
Theorem failed_run_between_sinks
  (http_get : string -> res string) (html_parser : string -> node)
  (py_float : string -> res float) (text_ge : cell -> nat -> bool)
  (datetime_now : nat -> datetime) (io_fault : stmt -> option exn)
  (log : option string) (csv_file : option DataFrame) (db : database)
  (clock : nat) (w' : world) (s : stmt) (e : exn) :
  driver http_get html_parser py_float text_ge datetime_now io_fault
    (boot log csv_file db clock) = (w', Uncaught s e) ->
  In s [ LogProgress "Data saved to CSV file";
         Connect;
         LogProgress "SQL Connection initiated." ] ->
  w_db w' = db /\
  exists d dm dr,
    extract http_get html_parser URL table_attribs = Ok d /\
    transform_frame py_float d = Ok (dm, dr) /\
    w_csv w' = Some dr.
Proof.
  intros H Hs. unfold driver in H.
  destruct (program_between_sinks s Hs) as [Hfirst Hlast].
  change program
    with (firstn 6 program ++ firstn 3 (skipn 6 program) ++ skipn 9 program)
    in H.
  rewrite run_app in H.
  destruct (run http_get html_parser py_float text_ge datetime_now io_fault
              (firstn 6 program) (boot log csv_file db clock))
    as [w6 [|s1 e1]] eqn:E6.
  - rewrite run_app in H.
    destruct (run http_get html_parser py_float text_ge datetime_now io_fault
                (firstn 3 (skipn 6 program)) w6) as [w9 [|s2 e2]] eqn:E9.
    + apply run_uncaught_In in H. contradiction.
    + injection H as <- _ _.
      destruct (run_keeps _ _ _ _ _ _ _ _ _ _ E9) as (Hc & Hd & _).
      rewrite Hc, Hd;
        try (simpl; intros Hin;
             repeat (destruct Hin as [Hin|Hin]; [discriminate Hin|]);
             exact Hin).
      clear Hc Hd E9 Hs Hfirst Hlast.
      change (firstn 6 program)
        with [ LogProgress "Preliminaries complete. Initiating ETL process";
               Extract;
               LogProgress "Data extraction complete. Initiating Transformation process";
               Transform;
               LogProgress "Data transformation complete. Initiating loading process";
               LoadToCsv ] in E6.
      unfold boot in E6.
      run_step E6 w1 E1. subst w1. world_fields.
      run_step E6 w2 E2. destruct E2 as (d & Hx & ->). world_fields.
      run_step E6 w3 E3. subst w3. world_fields.
      run_step E6 w4 E4. destruct E4 as (r & d0 & dm & dr & Hr & Hd & Ht & ->).
      world_fields. injection Hr as <-. world_fields. injection Hd as <-.
      run_step E6 w5 E5. subst w5. world_fields.
      run_step E6 w6' E6'. destruct E6' as (r & d1 & Hr & Hd & ->).
      world_fields. injection Hr as <-. world_fields. injection Hd as <-.
      simpl in E6. injection E6 as <-. world_fields.
      split; [reflexivity|]. exists d, dm, dr. repeat split; assumption.
  - injection H as _ <- _. apply run_uncaught_In in E6. contradiction.
Qed.

Lemma failed_run_between_sinks_witness :
  exists w',
    driver online parse_fixture float_of_digits never_ge example_clock
      (fun s => match s with Connect => Some OSError | _ => None end)
      (boot None None [] 0)
    = (w', Uncaught Connect OSError) /\
    w_db w' = [] /\
    exists d dm dr,
      extract online parse_fixture URL table_attribs = Ok d /\
      transform_frame float_of_digits d = Ok (dm, dr) /\
      w_csv w' = Some dr.
Proof.
  assert (H : exists w',
             driver online parse_fixture float_of_digits never_ge example_clock
               (fun s => match s with Connect => Some OSError | _ => None end)
               (boot None None [] 0)
             = (w', Uncaught Connect OSError)).
  { eexists. vm_compute. reflexivity. }
  destruct H as (w' & H). exists w'. split; [exact H|].
  apply (failed_run_between_sinks _ _ _ _ _ _ _ _ _ _ _ _ _ H).
  right. left. reflexivity.
Defined.
